(** * Terminal-APAC: the turn strategy of [python-algo/algo_strategy.py]

    A shallow embedding of the Python module [algo_strategy.py]: the class
    [AlgoStrategy] (turn orchestration, offence planning, breach history) and
    the class [Defence] (baseline, reactive and resource-gated defence).

    Python values that reach the strategy through [json.loads] are modelled
    by [pyval]; exceptions by [exn]; a method body by a computation in the
    monad [M], which threads the mutable state and, as in Python, keeps every
    mutation made before an exception was raised. The Battlefield Interface
    ([gamelib.GameState]) is external to the module and is a type class.

    Not modelled, because they change nothing the strategy reads:
    [gamelib.debug_write] (diagnostic output), the random seed drawn in
    [__init__], and [game_state.suppress_warnings]. *)

From Stdlib Require Import ZArith List Ascii String QArith Bool Lia.
From Stdlib Require Import PrimFloat.
Import ListNotations.

Local Open Scope string_scope.
Local Open Scope list_scope.
Local Open Scope Z_scope.
Set Warnings "-register-all".

(** ** Python values and exceptions *)

(** What [json.loads] returns: [None], [bool], [int], [float], [str] (held
    as the bytes of its UTF-8 encoding), [list] and [dict] (string keys, in
    insertion order, each key once). *)
Inductive pyval : Type :=
| PNone
| PBool (b : bool)
| PInt (n : Z)
| PFloat (f : float)
| PStr (s : string)
| PList (items : list pyval)
| PDict (items : list (string * pyval)).

Inductive exn : Type :=
| KeyError (key : pyval)
| IndexError
| TypeError
| AttributeError (attr : string).

Inductive result (A : Type) : Type :=
| Ok (a : A)
| Raise (e : exn).
Arguments Ok {A} a.
Arguments Raise {A} e.

(** ** The monad of method bodies: state and exceptions *)

Module PyMonad.

Definition M (S A : Type) : Type := S -> result A * S.

Definition ret {S A} (a : A) : M S A := fun s => (Ok a, s).

Definition bind {S A B} (m : M S A) (k : A -> M S B) : M S B :=
  fun s => match m s with
           | (Ok a, s') => k a s'
           | (Raise e, s') => (Raise e, s')
           end.

Definition raise {S A} (e : exn) : M S A := fun s => (Raise e, s).

Definition get {S} : M S S := fun s => (Ok s, s).

Definition modify {S} (f : S -> S) : M S unit := fun s => (Ok tt, f s).

(** A pure step that may raise. *)
Definition lift_result {S A} (r : result A) : M S A := fun s => (r, s).

(** A computation on a component [T] of the state [S]. *)
Definition zoom {S T A} (proj : S -> T) (upd : T -> S -> S) (m : M T A)
  : M S A :=
  fun s => let (r, t) := m (proj s) in (r, upd t s).

(** [for x in xs: body x] *)
Fixpoint for_each {S A} (xs : list A) (body : A -> M S unit) : M S unit :=
  match xs with
  | [] => ret tt
  | x :: rest => bind (body x) (fun _ => for_each rest body)
  end.

(** [if c: body] *)
Definition when {S} (c : bool) (body : M S unit) : M S unit :=
  if c then body else ret tt.

End PyMonad.
Import PyMonad.

Declare Scope py_scope.
Delimit Scope py_scope with py.
Notation "x <- m ;; k" := (bind m (fun x => k))
  (at level 61, m at next level, right associativity) : py_scope.
Notation "m ;; k" := (bind m (fun _ => k))
  (at level 61, right associativity) : py_scope.
Local Open Scope py_scope.

(** ** Python primitives used by the module *)

Definition b2z (b : bool) : Z := if b then 1 else 0.

Fixpoint dict_get (items : list (string * pyval)) (key : string)
  : option pyval :=
  match items with
  | [] => None
  | (k, v) :: rest => if String.eqb k key then Some v else dict_get rest key
  end.

(** [range(a, b)] *)
Definition range (a b : Z) : list Z :=
  map (fun i => a + Z.of_nat i) (seq 0 (Z.to_nat (b - a))).

(** [v[key]] for a string [key]. *)
Definition getitem_str (v : pyval) (key : string) : result pyval :=
  match v with
  | PDict items =>
      match dict_get items key with
      | Some x => Ok x
      | None => Raise (KeyError (PStr key))
      end
  | _ => Raise TypeError
  end.

Definition nth_index {A} (l : list A) (i : Z) : option A :=
  if 0 <=? i then nth_error l (Z.to_nat i)
  else if 0 <=? Z.of_nat (List.length l) + i
       then nth_error l (Z.to_nat (Z.of_nat (List.length l) + i))
       else None.

(** A [str] is held as the bytes of its UTF-8 encoding. A character is a
    lead byte together with the continuation bytes (binary [10xxxxxx])
    that follow it. *)
Definition is_continuation (b : ascii) : bool :=
  let n := nat_of_ascii b in ((128 <=? n) && (n <? 192))%nat.

Fixpoint split_chars (current : list ascii) (bytes : list ascii)
  : list (list ascii) :=
  match bytes with
  | [] => match current with [] => [] | _ => [rev current] end
  | b :: rest =>
      if is_continuation b then split_chars (b :: current) rest
      else match current with
           | [] => split_chars [b] rest
           | _ => rev current :: split_chars [b] rest
           end
  end.

(** The characters of a [str], each a [str] of length one. *)
Definition chars (s : string) : list pyval :=
  map (fun c => PStr (string_of_list_ascii c))
    (split_chars [] (list_ascii_of_string s)).

(** [v[i]] for an integer [i]. A dict loaded from JSON has string keys only,
    so an integer key is never found. *)
Definition getitem_int (v : pyval) (i : Z) : result pyval :=
  match v with
  | PList items =>
      match nth_index items i with
      | Some x => Ok x
      | None => Raise IndexError
      end
  | PStr s =>
      match nth_index (chars s) i with
      | Some x => Ok x
      | None => Raise IndexError
      end
  | PDict _ => Raise (KeyError (PInt i))
  | PNone | PBool _ | PInt _ | PFloat _ => Raise TypeError
  end.

(** The items a [for] loop draws from [v]. *)
Definition iterate (v : pyval) : result (list pyval) :=
  match v with
  | PList items => Ok items
  | PStr s => Ok (chars s)
  | PDict items => Ok (map (fun kv => PStr (fst kv)) items)
  | PNone | PBool _ | PInt _ | PFloat _ => Raise TypeError
  end.

(** [v == 1]: numbers compare by value ([True == 1], [1.0 == 1]); anything
    else is unequal to a number. *)
Definition eq_one (v : pyval) : bool :=
  match v with
  | PInt m => m =? 1
  | PBool b => b
  | PFloat f => PrimFloat.eqb f 1%float
  | PNone | PStr _ | PList _ | PDict _ => false
  end.

(** [v + 2]: defined on numbers only. *)
Definition add_two (v : pyval) : result pyval :=
  match v with
  | PInt m => Ok (PInt (m + 2))
  | PBool b => Ok (PInt (b2z b + 2))
  | PFloat f => Ok (PFloat (PrimFloat.add f 2%float))
  | PNone | PStr _ | PList _ | PDict _ => Raise TypeError
  end.

(** [v > 10]: defined on numbers only. *)
Definition gt_ten (v : pyval) : result bool :=
  match v with
  | PInt m => Ok (10 <? m)
  | PBool b => Ok false
  | PFloat f => Ok (PrimFloat.ltb 10%float f)
  | PNone | PStr _ | PList _ | PDict _ => Raise TypeError
  end.

(** [v < 12]: defined on numbers only; a list, a dict, a [str] or [None]
    cannot be ordered against an integer. *)
Definition lt_twelve (v : pyval) : result bool :=
  match v with
  | PInt m => Ok (m <? 12)
  | PBool b => Ok true
  | PFloat f => Ok (PrimFloat.ltb f 12%float)
  | PNone | PStr _ | PList _ | PDict _ => Raise TypeError
  end.

(** ** The strategy object *)

(** The instance attributes the module itself assigns; [None] is an
    attribute not yet bound. *)
Record algo : Type := {
  config : option pyval;
  scored_on_locations : option (list pyval)
}.

Definition fresh_algo : algo :=
  {| config := None; scored_on_locations := None |}.

Definition set_config (c : pyval) (a : algo) : algo :=
  {| config := Some c; scored_on_locations := scored_on_locations a |}.

Definition set_scored_on_locations (l : list pyval) (a : algo) : algo :=
  {| config := config a; scored_on_locations := Some l |}.

(** [self.scored_on_locations] *)
Definition get_scored_on_locations : M algo (list pyval) :=
  a <- get ;;
  match scored_on_locations a with
  | Some l => ret l
  | None => raise (AttributeError "scored_on_locations")
  end.

(** [self.scored_on_locations.append(x)]: the list is extended in place. *)
Definition append_scored_on_location (x : pyval) : M algo unit :=
  l <- get_scored_on_locations ;;
  modify (set_scored_on_locations (l ++ [x])).

(** [config["unitInformation"][i]["shorthand"]] *)
Definition shorthand (cfg : pyval) (i : Z) : result pyval :=
  match getitem_str cfg "unitInformation" with
  | Ok units =>
      match getitem_int units i with
      | Ok u => getitem_str u "shorthand"
      | Raise e => Raise e
      end
  | Raise e => Raise e
  end.

(** The six unit kinds bound by [on_game_start] to the globals of the same
    names (the shorthands of [unitInformation] entries 0 to 5). *)
Inductive unit_kind : Type :=
| WALL | SUPPORT | TURRET | SCOUT | DEMOLISHER | INTERCEPTOR.

(** [AlgoStrategy.on_game_start] *)
Definition on_game_start (cfg : pyval) : M algo unit :=
  modify (set_config cfg) ;;
  for_each (range 0 6) (fun i => _ <- lift_result (shorthand cfg i) ;; ret tt) ;;
  modify (set_scored_on_locations []).

(** The body of the loop of [on_action_frame] over the breaches. *)
Definition record_breach (breach : pyval) : M algo unit :=
  location <- lift_result (getitem_int breach 0) ;;
  owner <- lift_result (getitem_int breach 4) ;;
  let unit_owner_self := if eq_one owner then true else false in
  when (negb unit_owner_self) (append_scored_on_location location).

(** [AlgoStrategy.on_action_frame], from the value that
    [json.loads(turn_string)] returned. *)
Definition on_action_frame (state : pyval) : M algo unit :=
  events <- lift_result (getitem_str state "events") ;;
  breaches <- lift_result (getitem_str events "breach") ;;
  items <- lift_result (iterate breaches) ;;
  for_each items record_breach.

(** The frames of a match, delivered one after the other. *)
Definition on_action_frames (frames : list pyval) : M algo unit :=
  for_each frames on_action_frame.

(** ** The Battlefield Interface *)

Definition coord : Type := (Z * Z)%type.

Definition Qltb (a b : Q) : bool := negb (Qle_bool b a).

(** [gamelib.GameState], as the module uses it. The module does not define
    it; a game state is any type with these operations.
    [gs_get_resources g i] is what [get_resources(i)] answers, as a Python
    value: the resource pool of the player of index [i]. Strength estimates
    are rationals. *)
Class BattlefieldInterface (GS : Type) : Type := {
  gs_turn_number : GS -> Z;
  gs_get_resources : GS -> Z -> pyval;
  gs_can_spawn : GS -> unit_kind -> coord -> bool;
  gs_contains_stationary_unit : GS -> coord -> bool;
  gs_attempt_spawn : GS -> unit_kind -> list coord -> Z -> GS;
  gs_attempt_upgrade : GS -> unit_kind -> list coord -> GS;
  gs_analyze_enemy_defences : GS -> coord -> Q;
  gs_submit_turn : GS -> GS
}.

(** A call on the game state that the model records: the legality
    pre-check with its answer, the two kinds of intent, and the submission. *)
Inductive call : Type :=
| CanSpawn (k : unit_kind) (c : coord) (answer : bool)
| AttemptSpawn (k : unit_kind) (locations : list coord) (num : Z)
| AttemptUpgrade (k : unit_kind) (locations : list coord)
| SubmitTurn.

Definition is_upgrade (x : call) : bool :=
  match x with AttemptUpgrade _ _ => true | _ => false end.

Definition is_spawn (x : call) : bool :=
  match x with AttemptSpawn _ _ _ => true | _ => false end.

Definition is_intent (x : call) : bool := is_spawn x || is_upgrade x.

Definition coord_eqb (a b : coord) : bool :=
  (fst a =? fst b) && (snd a =? snd b).

(** The intent [x] places a new unit at [c]. *)
Definition spawns_at (c : coord) (x : call) : bool :=
  match x with
  | AttemptSpawn _ locations _ => existsb (coord_eqb c) locations
  | _ => false
  end.


(** The state of one decision pass: the object [self], the game state built
    for the turn, and the calls made on it so far, oldest first. *)
Record turn (GS : Type) : Type := {
  self : algo;
  game_state : GS;
  calls : list call
}.
Arguments self {GS} t.
Arguments game_state {GS} t.
Arguments calls {GS} t.

Section GameStateCalls.

Context {GS : Type} `{BattlefieldInterface GS}.

Definition record_call (x : call) (g : GS) (t : turn GS) : turn GS :=
  {| self := self t; game_state := g; calls := calls t ++ [x] |}.

(** [game_state.turn_number] *)
Definition turn_number : M (turn GS) Z :=
  t <- get ;; ret (gs_turn_number (game_state t)).

(** [game_state.get_resources(index)] *)
Definition get_resources (index : Z) : M (turn GS) pyval :=
  t <- get ;; ret (gs_get_resources (game_state t) index).

(** [game_state.analyze_enemy_defences(location)] *)
Definition analyze_enemy_defences (c : coord) : M (turn GS) Q :=
  t <- get ;; ret (gs_analyze_enemy_defences (game_state t) c).

(** [game_state.can_spawn(kind, location)] *)
Definition can_spawn (k : unit_kind) (c : coord) : M (turn GS) bool :=
  t <- get ;;
  let answer := gs_can_spawn (game_state t) k c in
  modify (record_call (CanSpawn k c answer) (game_state t)) ;;
  ret answer.

(** [game_state.attempt_spawn(kind, locations, num)] *)
Definition attempt_spawn (k : unit_kind) (locations : list coord) (num : Z)
  : M (turn GS) unit :=
  t <- get ;;
  modify (record_call (AttemptSpawn k locations num)
            (gs_attempt_spawn (game_state t) k locations num)).

(** [game_state.attempt_upgrade(kind, locations)] *)
Definition attempt_upgrade (k : unit_kind) (locations : list coord)
  : M (turn GS) unit :=
  t <- get ;;
  modify (record_call (AttemptUpgrade k locations)
            (gs_attempt_upgrade (game_state t) k locations)).

(** [game_state.submit_turn()] *)
Definition submit_turn : M (turn GS) unit :=
  t <- get ;;
  modify (record_call SubmitTurn (gs_submit_turn (game_state t))).

(** The location argument of [attempt_spawn] when it is a computed Python
    value: one [[x, y]] pair of integers or a list of such pairs. Any
    other value is outside the interface's domain and is refused. *)
Definition as_coord (v : pyval) : option coord :=
  match v with
  | PList [PInt x; PInt y] => Some (x, y)
  | _ => None
  end.

Fixpoint as_coords (vs : list pyval) : option (list coord) :=
  match vs with
  | [] => Some []
  | v :: rest =>
      match as_coord v, as_coords rest with
      | Some c, Some cs => Some (c :: cs)
      | _, _ => None
      end
  end.

Definition as_locations (v : pyval) : option (list coord) :=
  match as_coord v with
  | Some c => Some [c]
  | None =>
      match v with
      | PList (x :: rest) => as_coords (x :: rest)
      | _ => None
      end
  end.

Definition attempt_spawn_value (k : unit_kind) (v : pyval) (num : Z)
  : M (turn GS) unit :=
  match as_locations v with
  | Some locations => attempt_spawn k locations num
  | None => raise TypeError
  end.

(** [self.scored_on_locations], read during a turn. *)
Definition self_scored_on_locations : M (turn GS) (list pyval) :=
  zoom self
    (fun a t => {| self := a; game_state := game_state t; calls := calls t |})
    get_scored_on_locations.

End GameStateCalls.

(** ** The class [Defence] *)

Module Defence.
Section Methods.

Context {GS : Type} `{BattlefieldInterface GS}.

(** [l[i, j]]: a list subscripted by a tuple. Python accepts integers and
    slices only. *)
Definition list_getitem_tuple (l : list Z) (key : Z * Z) : result coord :=
  Raise TypeError.

(** The list display bound to [wall_locations]. Its ninth element is
    written [[19, 13] [20, 13]], a subscription of the list [[19, 13]] by
    the tuple [(20, 13)], evaluated after the eight elements before it. *)
Definition wall_locations : result (list coord) :=
  match list_getitem_tuple [19; 13] (20, 13) with
  | Ok ninth =>
      Ok [(5, 13); (6, 13); (7, 13); (8, 13); (9, 13); (18, 13); ninth;
          (21, 13); (22, 13)]
  | Raise e => Raise e
  end.

(** [Defence.build_defences] *)
Definition build_defences : M (turn GS) unit :=
  let turret_locations := [(11, 11); (16, 11)] in
  attempt_spawn TURRET turret_locations 1 ;;
  walls <- lift_result wall_locations ;;
  attempt_spawn WALL walls 1 ;;
  left <- analyze_enemy_defences (1, 11) ;;
  right <- analyze_enemy_defences (22, 11) ;;
  let support_location := if Qltb left right then [(3, 11)] else [(24, 11)] in
  attempt_spawn SUPPORT support_location 1.

(** [Defence.build_reactive_defense] *)
Definition build_reactive_defense : M (turn GS) unit :=
  locations <- self_scored_on_locations ;;
  for_each locations (fun location =>
    x0 <- lift_result (getitem_int location 0) ;;
    x <- lift_result (add_two x0) ;;
    y0 <- lift_result (getitem_int location 1) ;;
    y <- lift_result (add_two y0) ;;
    let build_location := PList [x; y] in
    attempt_spawn_value TURRET build_location 1).

(** [Defence.update_defence] *)
Definition update_defence : M (turn GS) unit :=
  structPoints <- get_resources 0 ;;
  scarce <- lift_result (lt_twelve structPoints) ;;
  if scarce then
    ok <- can_spawn TURRET (12, 11) ;;
    when ok (attempt_spawn TURRET [(12, 11)] 1) ;;
    ok <- can_spawn TURRET (15, 11) ;;
    when ok (attempt_spawn TURRET [(12, 11)] 1) ;;
    for_each (range 1 10) (fun i =>
      ok <- can_spawn WALL (i, 13) ;;
      when ok (attempt_spawn WALL [(i, 13)] 1)) ;;
    for_each (range 17 27) (fun i =>
      ok <- can_spawn WALL (i, 13) ;;
      when ok (attempt_spawn WALL [(i, 13)] 1)) ;;
    for_each (range 1 4) (fun i =>
      ok <- can_spawn SUPPORT (i, 12) ;;
      when ok (attempt_spawn SUPPORT [(i, 13)] 1)) ;;
    for_each (range 24 27) (fun i =>
      ok <- can_spawn SUPPORT (i, 12) ;;
      when ok (attempt_spawn SUPPORT [(i, 13)] 1))
  else
    ok <- can_spawn TURRET (12, 11) ;;
    (if ok then attempt_spawn TURRET [(12, 11)] 1
     else attempt_upgrade TURRET [(12, 11)]) ;;
    ok <- can_spawn TURRET (15, 11) ;;
    (if ok then attempt_spawn TURRET [(15, 11)] 1
     else attempt_upgrade TURRET [(15, 11)]) ;;
    for_each (range 1 10) (fun i =>
      ok <- can_spawn WALL (i, 13) ;;
      when ok (attempt_spawn WALL [(i, 13)] 1)) ;;
    for_each (range 17 27) (fun i =>
      ok <- can_spawn WALL (i, 13) ;;
      when ok (attempt_spawn WALL [(i, 13)] 1)) ;;
    for_each (range 1 4) (fun i =>
      ok <- can_spawn SUPPORT (i, 12) ;;
      when ok (attempt_spawn SUPPORT [(i, 13)] 1)) ;;
    for_each (range 24 27) (fun i =>
      ok <- can_spawn SUPPORT (i, 12) ;;
      when ok (attempt_spawn SUPPORT [(i, 13)] 1)).

End Methods.
End Defence.

(** ** The class [AlgoStrategy]: the decision pass *)

(** The attributes that [starter_strategy] looks up on [self] and calls. *)
Inductive helper : Type :=
| build_defences
| build_reactive_defense
| update_defence
| stall_with_interceptors
| detect_enemy_unit
| demolisher_line_strategy
| least_damage_spawn_location.

Definition attr_name (h : helper) : string :=
  match h with
  | build_defences => "build_defences"
  | build_reactive_defense => "build_reactive_defense"
  | update_defence => "update_defence"
  | stall_with_interceptors => "stall_with_interceptors"
  | detect_enemy_unit => "detect_enemy_unit"
  | demolisher_line_strategy => "demolisher_line_strategy"
  | least_damage_spawn_location => "least_damage_spawn_location"
  end.

Inductive class_name : Type := cls_AlgoStrategy | cls_AlgoCore | cls_Defence.

(** The functions that the class bodies of the module define. *)
Definition AlgoStrategy_body : list string :=
  ["__init__"; "on_game_start"; "on_turn"; "starter_strategy";
   "on_action_frame"].

Definition Defence_body : list string :=
  ["build_defences"; "build_reactive_defense"; "update_defence"].

(** [class AlgoStrategy(gamelib.AlgoCore)] and [class Defence:], each
    followed by its bases in method resolution order. *)
Definition mro (c : class_name) : list class_name :=
  match c with
  | cls_AlgoStrategy => [cls_AlgoStrategy; cls_AlgoCore]
  | cls_AlgoCore => [cls_AlgoCore]
  | cls_Defence => [cls_Defence]
  end.

Section DecisionPass.

Context {GS : Type} `{BattlefieldInterface GS}.

(** A bound method called with the game state and further arguments. *)
Definition method : Type := list pyval -> M (turn GS) pyval.

(** What [gamelib.AlgoCore], the base class, provides under a name. *)
Variable AlgoCore_attr : string -> option method.

(** The class [c] has the attribute [attr] in its own body. *)
Definition defined_in (attr : string) (c : class_name) : bool :=
  match c with
  | cls_AlgoStrategy => existsb (String.eqb attr) AlgoStrategy_body
  | cls_Defence => existsb (String.eqb attr) Defence_body
  | cls_AlgoCore =>
      match AlgoCore_attr attr with Some _ => true | None => false end
  end.

(** The class that provides [attr] to an [AlgoStrategy] instance. *)
Definition resolve (attr : string) : option class_name :=
  find (defined_in attr) (mro cls_AlgoStrategy).

(** [self.h(game_state, *args)] on an [AlgoStrategy] instance. No helper
    is defined in the class body of [AlgoStrategy], so the lookup continues
    in the base class, and [Defence] is not a base (lemma
    [resolve_helper]). *)
Definition self_call (h : helper) (args : list pyval) : M (turn GS) pyval :=
  match AlgoCore_attr (attr_name h) with
  | Some m => m args
  | None => raise (AttributeError (attr_name h))
  end.

(** Lines 76 to 81 of [starter_strategy]: the three defence phases. *)
Definition defence_phases : M (turn GS) unit :=
  self_call build_defences [] ;;
  self_call build_reactive_defense [] ;;
  self_call update_defence [] ;;
  ret tt.

(** Lines 83 to 104 of [starter_strategy]: the offence planner. *)
Definition offence_planner : M (turn GS) unit :=
  tn <- turn_number ;;
  if tn <? 5 then
    self_call stall_with_interceptors [] ;; ret tt
  else
    density <- self_call detect_enemy_unit
                 [PNone; PNone; PList [PInt 14; PInt 15]] ;;
    crowded <- lift_result (gt_ten density) ;;
    if crowded then
      self_call demolisher_line_strategy [] ;; ret tt
    else
      tn' <- turn_number ;;
      when (tn' mod 2 =? 1)
        (let scout_spawn_location_options :=
           PList [PList [PInt 13; PInt 0]; PList [PInt 14; PInt 0]] in
         best_location <- self_call least_damage_spawn_location
                            [scout_spawn_location_options] ;;
         attempt_spawn_value SCOUT best_location 1000) ;;
      let support_locations := [(13, 2); (14, 2); (13, 3); (14, 3)] in
      attempt_spawn SUPPORT support_locations 1.

(** [AlgoStrategy.starter_strategy] *)
Definition starter_strategy : M (turn GS) unit :=
  defence_phases ;;
  offence_planner.

(** [AlgoStrategy.on_turn], from the game state that
    [gamelib.GameState(self.config, turn_state)] built. *)
Definition on_turn : M (turn GS) unit :=
  starter_strategy ;;
  submit_turn.

End DecisionPass.

(** ** Well-formed action frames *)

(** A breach entry of an action frame: [[x, y], damage, unit type, unit id,
    owner], the owner being 1 for the player itself and 2 for the
    opponent. The three middle fields are never inspected. *)
Record breach_event : Type := {
  be_location : coord;
  be_damage : pyval;
  be_unit_type : pyval;
  be_unit_id : pyval;
  be_owner : Z
}.

Definition encode_coord (c : coord) : pyval :=
  PList [PInt (fst c); PInt (snd c)].

Definition encode_breach (e : breach_event) : pyval :=
  PList [encode_coord (be_location e); be_damage e; be_unit_type e;
         be_unit_id e; PInt (be_owner e)].

(** The owner flag says "not self". *)
Definition opponent_owned (e : breach_event) : bool :=
  negb (be_owner e =? 1).

Fixpoint count_opponent_owned (es : list breach_event) : nat :=
  match es with
  | [] => O
  | e :: rest =>
      if opponent_owned e then S (count_opponent_owned rest)
      else count_opponent_owned rest
  end.

(** The frame [state] delivers the breach events [es], whatever else it
    holds. *)
Definition carries (state : pyval) (es : list breach_event) : Prop :=
  exists events,
    getitem_str state "events" = Ok events /\
    getitem_str events "breach" = Ok (PList (map encode_breach es)).

(** The tracker entries that the events [es] leave. *)
Definition breach_entries (es : list breach_event) : list pyval :=
  map (fun e => encode_coord (be_location e)) (filter opponent_owned es).

(** A frame holding nothing but the breach events [es]. *)
Definition frame_of (es : list breach_event) : pyval :=
  PDict [("events", PDict [("breach", PList (map encode_breach es))])].

(** ** A concrete board *)

Module Board.

(** Modelled from the spec: the Battlefield Interface ([gamelib.GameState])
    is not part of the module. This board adjudicates an intent as the
    spec's data model and error taxonomy say: a placement is refused when
    the cell is occupied, out of the arena or not affordable; structures
    are paid from the structure currency (index 0), mobile units from the
    mobility currency (index 1); an upgrade needs a unit of the kind on the
    cell, not yet upgraded, and is paid from the structure currency.
    Balances and costs are whole numbers. [resources(player_index)]
    answers the pool of the player, a list of the structure and the
    mobility balance; a board with [b_scalar] set answers the structure
    balance alone instead, which is what [update_defence] compares with
    12. *)
Record board : Type := {
  b_turn : Z;
  b_sp : Z;
  b_mp : Z;
  b_cost : unit_kind -> Z;
  b_upgrade_cost : Z;
  b_units : list (coord * unit_kind);
  b_upgraded : list coord;
  b_scalar : bool
}.

Definition is_stationary (k : unit_kind) : bool :=
  match k with
  | WALL | SUPPORT | TURRET => true
  | SCOUT | DEMOLISHER | INTERCEPTOR => false
  end.

(** The player's half of the diamond-shaped 28 by 28 arena. *)
Definition in_own_half (c : coord) : bool :=
  let (x, y) := c in
  (0 <=? y) && (y <=? 13) && (13 - y <=? x) && (x <=? 14 + y).

Definition occupied (b : board) (c : coord) : bool :=
  existsb (fun u => coord_eqb c (fst u)) (b_units b).

Definition balance (b : board) (k : unit_kind) : Z :=
  if is_stationary k then b_sp b else b_mp b.

Definition affordable (b : board) (k : unit_kind) : bool :=
  b_cost b k <=? balance b k.

Definition board_can_spawn (b : board) (k : unit_kind) (c : coord) : bool :=
  in_own_half c && negb (occupied b c) && affordable b k.

Definition spawn_one (b : board) (k : unit_kind) (c : coord) : board :=
  if board_can_spawn b k c then
    {| b_turn := b_turn b;
       b_sp := if is_stationary k then b_sp b - b_cost b k else b_sp b;
       b_mp := if is_stationary k then b_mp b else b_mp b - b_cost b k;
       b_cost := b_cost b;
       b_upgrade_cost := b_upgrade_cost b;
       b_units := if is_stationary k then b_units b ++ [(c, k)] else b_units b;
       b_upgraded := b_upgraded b;
       b_scalar := b_scalar b |}
  else b.

Fixpoint spawn_many (n : nat) (b : board) (k : unit_kind) (c : coord) : board :=
  match n with
  | O => b
  | S n' => spawn_many n' (spawn_one b k c) k c
  end.

Definition board_attempt_spawn (b : board) (k : unit_kind)
  (locations : list coord) (num : Z) : board :=
  fold_left (fun b' c => spawn_many (Z.to_nat num) b' k c) locations b.

Definition unit_kind_eqb (a b : unit_kind) : bool :=
  match a, b with
  | WALL, WALL | SUPPORT, SUPPORT | TURRET, TURRET | SCOUT, SCOUT
  | DEMOLISHER, DEMOLISHER | INTERCEPTOR, INTERCEPTOR => true
  | _, _ => false
  end.

Definition upgrade_one (b : board) (k : unit_kind) (c : coord) : board :=
  if existsb (fun u => coord_eqb c (fst u) && unit_kind_eqb k (snd u)) (b_units b)
     && negb (existsb (coord_eqb c) (b_upgraded b))
     && (b_upgrade_cost b <=? b_sp b)
  then
    {| b_turn := b_turn b;
       b_sp := b_sp b - b_upgrade_cost b;
       b_mp := b_mp b;
       b_cost := b_cost b;
       b_upgrade_cost := b_upgrade_cost b;
       b_units := b_units b;
       b_upgraded := b_upgraded b ++ [c];
       b_scalar := b_scalar b |}
  else b.

Definition board_attempt_upgrade (b : board) (k : unit_kind)
  (locations : list coord) : board :=
  fold_left (fun b' c => upgrade_one b' k c) locations b.

(** The pool of the player of index 0; the board holds no balance of the
    opponent, whose pool reads as empty. *)
Definition pool (b : board) (player_index : Z) : pyval :=
  if b_scalar b then PInt (b_sp b)
  else if player_index =? 0 then PList [PInt (b_sp b); PInt (b_mp b)]
  else PList [PInt 0; PInt 0].

#[global] Instance board_interface : BattlefieldInterface board := {
  gs_turn_number := b_turn;
  gs_get_resources := pool;
  gs_can_spawn := board_can_spawn;
  gs_contains_stationary_unit := occupied;
  gs_attempt_spawn := board_attempt_spawn;
  gs_attempt_upgrade := board_attempt_upgrade;
  gs_analyze_enemy_defences := fun _ _ => 0%Q;
  gs_submit_turn := fun b => b
}.

(** Unit costs: wall 1, support 4, turret 2, scout 1, demolisher 3,
    interceptor 1. *)
Definition standard_cost (k : unit_kind) : Z :=
  match k with
  | WALL => 1 | SUPPORT => 4 | TURRET => 2
  | SCOUT => 1 | DEMOLISHER => 3 | INTERCEPTOR => 1
  end.

(** An empty board at turn [tn] with [sp] structure and [mp] mobility
    currency, at the given unit costs. *)
Definition empty_board (tn : Z) (sp mp : Z) (cost : unit_kind -> Z) : board :=
  {| b_turn := tn; b_sp := sp; b_mp := mp; b_cost := cost;
     b_upgrade_cost := 4; b_units := []; b_upgraded := [];
     b_scalar := false |}.

Definition with_units (us : list (coord * unit_kind)) (b : board) : board :=
  {| b_turn := b_turn b; b_sp := b_sp b; b_mp := b_mp b; b_cost := b_cost b;
     b_upgrade_cost := b_upgrade_cost b; b_units := us;
     b_upgraded := b_upgraded b; b_scalar := b_scalar b |}.

(** The same board, answering [get_resources] with the structure balance
    alone. *)
Definition answering_balance (b : board) : board :=
  {| b_turn := b_turn b; b_sp := b_sp b; b_mp := b_mp b; b_cost := b_cost b;
     b_upgrade_cost := b_upgrade_cost b; b_units := b_units b;
     b_upgraded := b_upgraded b; b_scalar := true |}.

End Board.

(** The start of a decision pass on the game state [g], for the object
    [a]. *)
Definition start_turn {GS : Type} (a : algo) (g : GS) : turn GS :=
  {| self := a; game_state := g; calls := [] |}.

(** An object whose tracker holds [l]. *)
Definition algo_with (l : list pyval) : algo :=
  {| config := None; scored_on_locations := Some l |}.

(** * Vocabulary of the properties *)

(** ** Predicates on calls *)

(** The turret that [build_reactive_defense] asks for at the breach [c]. *)
Definition reinforcement (c : coord) : call :=
  AttemptSpawn TURRET [(fst c + 2, snd c + 2)] 1.

(** The intent issued for a designated turret cell in the sufficient
    regime, given the answer of the pre-check. *)
Definition turret_intent (answer : bool) (c : coord) : call :=
  if answer then AttemptSpawn TURRET [c] 1 else AttemptUpgrade TURRET [c].

(** What the four row fills may call: pre-checks, and placements on row 13. *)
Definition row_fill_call (x : call) : Prop :=
  match x with
  | CanSpawn _ (_, y) _ => y = 12 \/ y = 13
  | AttemptSpawn _ [(_, y)] _ => y = 13
  | _ => False
  end.

(** Neither an upgrade nor a placement at a designated turret cell. *)
Definition quiet_call (x : call) : Prop :=
  is_upgrade x = false /\
  spawns_at (12, 11) x = false /\ spawns_at (15, 11) x = false.

(** Support pre-checks are asked on row 12, support placements are issued
    on row 13. *)
Definition support_rows_differ (x : call) : Prop :=
  match x with
  | CanSpawn SUPPORT c _ => snd c = 12
  | AttemptSpawn SUPPORT locations _ => Forall (fun c => snd c = 13) locations
  | _ => True
  end.

(** No upgrade, and no placement at the second designated turret cell. *)
Definition scarce_call (x : call) : Prop :=
  is_upgrade x = false /\ spawns_at (15, 11) x = false.

(** The calls that concern turrets, and those that concern supports. *)
Definition about_turrets (x : call) : bool :=
  match x with
  | CanSpawn TURRET _ _ | AttemptSpawn TURRET _ _ | AttemptUpgrade TURRET _ => true
  | _ => false
  end.

Definition about_supports (x : call) : bool :=
  match x with
  | CanSpawn SUPPORT _ _ | AttemptSpawn SUPPORT _ _ => true
  | _ => false
  end.

Section Vocabulary.

Context {GS : Type} `{BattlefieldInterface GS}.

(** The computation [m] returns normally from every state, leaves [self]
    alone, and every call it makes satisfies [P]. *)
Definition emits {A} (P : call -> Prop) (m : M (turn GS) A) : Prop :=
  forall t, exists a t' new,
    m t = (Ok a, t') /\ self t' = self t /\
    calls t' = calls t ++ new /\ Forall P new.

(** The body of the loop of [build_reactive_defense]. *)
Definition reinforce (location : pyval) : M (turn GS) unit :=
  x0 <- lift_result (getitem_int location 0) ;;
  x <- lift_result (add_two x0) ;;
  y0 <- lift_result (getitem_int location 1) ;;
  y <- lift_result (add_two y0) ;;
  attempt_spawn_value TURRET (PList [x; y]) 1.

(** The four loops that end both branches of [update_defence]. *)
Definition fill_rows : M (turn GS) unit :=
  for_each (range 1 10) (fun i =>
    ok <- can_spawn WALL (i, 13) ;;
    when ok (attempt_spawn WALL [(i, 13)] 1)) ;;
  for_each (range 17 27) (fun i =>
    ok <- can_spawn WALL (i, 13) ;;
    when ok (attempt_spawn WALL [(i, 13)] 1)) ;;
  for_each (range 1 4) (fun i =>
    ok <- can_spawn SUPPORT (i, 12) ;;
    when ok (attempt_spawn SUPPORT [(i, 13)] 1)) ;;
  for_each (range 24 27) (fun i =>
    ok <- can_spawn SUPPORT (i, 12) ;;
    when ok (attempt_spawn SUPPORT [(i, 13)] 1)).

(** The branch of [update_defence] for a balance below 12 (lemma
    [update_defence_branches]). *)
Definition scarce_branch : M (turn GS) unit :=
  ok <- can_spawn TURRET (12, 11) ;;
  when ok (attempt_spawn TURRET [(12, 11)] 1) ;;
  ok <- can_spawn TURRET (15, 11) ;;
  when ok (attempt_spawn TURRET [(12, 11)] 1) ;;
  fill_rows.

(** The branch of [update_defence] for a balance of at least 12. *)
Definition sufficient_branch : M (turn GS) unit :=
  ok <- can_spawn TURRET (12, 11) ;;
  (if ok then attempt_spawn TURRET [(12, 11)] 1
   else attempt_upgrade TURRET [(12, 11)]) ;;
  ok <- can_spawn TURRET (15, 11) ;;
  (if ok then attempt_spawn TURRET [(15, 11)] 1
   else attempt_upgrade TURRET [(15, 11)]) ;;
  fill_rows.

(** The game state after the pre-check and the intent for the designated
    turret cell [c]. *)
Definition after_turret (g : GS) (c : coord) : GS :=
  if gs_can_spawn g TURRET c then gs_attempt_spawn g TURRET [c] 1
  else gs_attempt_upgrade g TURRET [c].

End Vocabulary.

(** ** Sample frames and turns *)

(** A breach at [(x, y)] with the given owner flag. *)
Definition sample_breach (x y owner : Z) : breach_event :=
  {| be_location := (x, y); be_damage := PFloat 1.5%float;
     be_unit_type := PInt 3; be_unit_id := PStr "17"; be_owner := owner |}.

(** Two frames: the opponent breaches [(1, 12)] twice, the player scores
    once, then the opponent breaches [(26, 12)]. *)
Definition sample_frames : list (list breach_event) :=
  [[sample_breach 1 12 2; sample_breach 14 0 1; sample_breach 1 12 2];
   [sample_breach 26 12 2]].

(** Three malformed frames: no [events] key, no [breach] key, and a breach
    list whose second entry holds a location and nothing else. *)
Definition frame_without_events : list (string * pyval) :=
  [("turnInfo", PList [PInt 1; PInt 3; PInt 7])].

Definition frame_without_breach : pyval :=
  PDict [("events", PDict [("attack", PList [])])].

Definition frame_with_short_entry : pyval :=
  PDict [("events",
          PDict [("breach",
                  PList (map encode_breach [sample_breach 1 12 2]
                         ++ PList [encode_coord (3, 10)] :: []))])].

(** A base class that provides none of the helpers. *)
Definition no_helpers {GS : Type} : string -> option (@method GS) :=
  fun _ => None.

(** Empty boards at turns 0, 3 and 7. *)
Definition opening_turn : turn Board.board :=
  start_turn (algo_with []) (Board.empty_board 0 40 5 Board.standard_cost).

Definition third_turn : turn Board.board :=
  start_turn (algo_with []) (Board.empty_board 3 15 8 Board.standard_cost).

Definition seventh_turn : turn Board.board :=
  start_turn (algo_with []) (Board.empty_board 7 15 12 Board.standard_cost).

(** A scarce turn: balance 5, standard costs, nothing built, on a board
    that answers [get_resources] with the structure balance. *)
Definition scarce_turn : turn Board.board :=
  start_turn (algo_with [])
    (Board.answering_balance (Board.empty_board 2 5 5 Board.standard_cost)).

(** A board with balance 20 and a turret on each designated cell. *)
Definition fortified_board : Board.board :=
  Board.with_units [((12, 11), TURRET); ((15, 11), TURRET)]
    (Board.empty_board 6 20 5 Board.standard_cost).

(** A turn on the fortified board, which answers [get_resources] with the
    pool; and the same turn on the board that answers with the structure
    balance. *)
Definition fortified_turn : turn Board.board :=
  start_turn (algo_with []) fortified_board.

Definition fortified_balance_turn : turn Board.board :=
  start_turn (algo_with []) (Board.answering_balance fortified_board).

(** A sufficient turn: balance 20, nothing built, on a board that answers
    with the structure balance. *)
Definition sufficient_turn : turn Board.board :=
  start_turn (algo_with [])
    (Board.answering_balance (Board.empty_board 6 20 5 Board.standard_cost)).

(** Unit costs under which no wall is affordable. *)
Definition no_walls (k : unit_kind) : Z :=
  match k with
  | TURRET => 2 | WALL => 100 | SUPPORT => 4
  | SCOUT => 1 | DEMOLISHER => 3 | INTERCEPTOR => 1
  end.

(** A scarce turn on which turrets and supports are affordable. *)
Definition support_turn : turn Board.board :=
  start_turn (algo_with [])
    (Board.answering_balance (Board.empty_board 2 11 5 no_walls)).

(** A turn whose tracker holds two breaches. *)
Definition breached_turn : turn Board.board :=
  start_turn (algo_with [encode_coord (1, 12); encode_coord (26, 12)])
    (Board.empty_board 4 15 8 Board.standard_cost).

Definition eighth_turn : turn Board.board :=
  start_turn (algo_with []) (Board.empty_board 8 15 12 Board.standard_cost).

(** A base class that provides a stall method and a density count, for
    the sake of exercising the branches of the offence planner. *)
Definition sample_stall : @method Board.board :=
  fun _ => attempt_spawn INTERCEPTOR [(7, 6)] 1000 ;; ret PNone.

Definition sample_detect : @method Board.board :=
  fun _ => ret (PInt 3).

Definition sample_base (attr : string) : option (@method Board.board) :=
  if String.eqb attr "stall_with_interceptors" then Some sample_stall
  else if String.eqb attr "detect_enemy_unit" then Some sample_detect
  else None.

(** A configuration that names six unit kinds. *)
Definition sample_config : pyval :=
  PDict [("unitInformation",
          PList (map (fun s => PDict [("shorthand", PStr s)])
                   ["FF"; "EF"; "DF"; "PI"; "EI"; "SI"]))].

(** ** Vocabulary of the further properties *)

Definition is_check (x : call) : bool :=
  match x with CanSpawn _ _ _ => true | _ => false end.

(** The pre-check of the cell [c] for the kind [k], together with the
    intent it leads to, if any: a refused pre-check alone; a granted
    pre-check followed by one placement of the kind, on the cell checked
    or, for a support, on the cell one row up, or, for the turret of
    [(15, 11)], on [(12, 11)]; a refused turret pre-check followed by an
    upgrade of the cell. *)
Inductive guarded_block : unit_kind -> coord -> list call -> Prop :=
| block_refused k c : guarded_block k c [CanSpawn k c false]
| block_placed k c :
    k <> SUPPORT ->
    guarded_block k c [CanSpawn k c true; AttemptSpawn k [c] 1]
| block_support_shifted x :
    guarded_block SUPPORT (x, 12)
      [CanSpawn SUPPORT (x, 12) true; AttemptSpawn SUPPORT [(x, 13)] 1]
| block_turret_repeated :
    guarded_block TURRET (15, 11)
      [CanSpawn TURRET (15, 11) true; AttemptSpawn TURRET [(12, 11)] 1]
| block_upgraded c :
    guarded_block TURRET c [CanSpawn TURRET c false; AttemptUpgrade TURRET [c]].

(** One guarded block for each of the given pre-checks, in order. *)
Inductive guarded : list (unit_kind * coord) -> list call -> Prop :=
| guarded_nil : guarded [] []
| guarded_cons k c checks b rest :
    guarded_block k c b -> guarded checks rest ->
    guarded ((k, c) :: checks) (b ++ rest).

(** The pre-checks of one pass of [update_defence]. *)
Definition policy_checks : list (unit_kind * coord) :=
  [(TURRET, (12, 11)); (TURRET, (15, 11))]
  ++ map (fun i => (WALL, (i, 13))) (range 1 10)
  ++ map (fun i => (WALL, (i, 13))) (range 17 27)
  ++ map (fun i => (SUPPORT, (i, 12))) (range 1 4)
  ++ map (fun i => (SUPPORT, (i, 12))) (range 24 27).

Section FurtherVocabulary.

Context {GS : Type} `{BattlefieldInterface GS}.

(** The computation [m] returns normally from every state, leaves [self]
    alone, and the list of the calls it makes satisfies [R]. *)
Definition produces {A} (R : list call -> Prop) (m : M (turn GS) A) : Prop :=
  forall t, exists a t' new,
    m t = (Ok a, t') /\ self t' = self t /\
    calls t' = calls t ++ new /\ R new.

(** A method of the module taken as a helper: called with the game state
    alone, it returns [None]. *)
Definition as_method (m : M (turn GS) unit) : @method GS :=
  fun _ => m ;; ret PNone.

(** The cell that a tracker entry made of a coordinate pair is reinforced
    at. *)
Definition reinforced (c : coord) : coord := (fst c + 2, snd c + 2).

End FurtherVocabulary.

(** A base class that provides the three methods of [Defence]. *)
Definition Defence_base (attr : string) : option (@method Board.board) :=
  if String.eqb attr "build_defences"
  then Some (as_method Defence.build_defences)
  else if String.eqb attr "build_reactive_defense"
  then Some (as_method Defence.build_reactive_defense)
  else if String.eqb attr "update_defence"
  then Some (as_method Defence.update_defence)
  else None.

(** A base class that provides all four offence helpers: a density count of
    [d], a demolisher line of three, and the first candidate as the spawn
    location. *)
Definition sample_demolisher_line : @method Board.board :=
  fun _ => attempt_spawn DEMOLISHER [(24, 10)] 3 ;; ret PNone.

Definition sample_least_damage : @method Board.board :=
  fun args =>
    match args with
    | [options] => lift_result (getitem_int options 0)
    | _ => raise TypeError
    end.

Definition offence_base (d : Z) (attr : string) : option (@method Board.board) :=
  if String.eqb attr "stall_with_interceptors" then Some sample_stall
  else if String.eqb attr "detect_enemy_unit" then Some (fun _ => ret (PInt d))
  else if String.eqb attr "demolisher_line_strategy"
  then Some sample_demolisher_line
  else if String.eqb attr "least_damage_spawn_location"
  then Some sample_least_damage
  else None.


(** A frame whose only breach has [null] for a location and the opponent
    for an owner. *)
Definition frame_with_null_location : pyval :=
  PDict [("events",
          PDict [("breach", PList [PList [PNone; PNone; PNone; PNone; PInt 2]])])].

(** * Properties *)

(** ** Running a computation *)

Section Running.

Context {S : Type}.

Lemma bind_ok {A B} (m : M S A) (k : A -> M S B) s a s' :
  m s = (Ok a, s') -> bind m k s = k a s'.
Proof. intros E. unfold bind. rewrite E. reflexivity. Qed.

Lemma bind_raise {A B} (m : M S A) (k : A -> M S B) s e s' :
  m s = (Raise e, s') -> bind m k s = (Raise e, s').
Proof. intros E. unfold bind. rewrite E. reflexivity. Qed.

Lemma for_each_app {A} (xs ys : list A) (body : A -> M S unit) s s' :
  for_each xs body s = (Ok tt, s') ->
  for_each (xs ++ ys) body s = for_each ys body s'.
Proof.
  revert s. induction xs as [|x xs IH]; intros s E; simpl in *.
  - inversion E. reflexivity.
  - unfold bind in *. destruct (body x s) as [[[]|e] s1]; [|discriminate].
    now apply IH.
Qed.

Lemma for_each_raise {A} (xs ys : list A) (body : A -> M S unit) s e s' :
  for_each xs body s = (Raise e, s') ->
  for_each (xs ++ ys) body s = (Raise e, s').
Proof.
  revert s. induction xs as [|x xs IH]; intros s E; simpl in *.
  - discriminate.
  - unfold bind in *. destruct (body x s) as [[[]|e1] s1]; [now apply IH|].
    exact E.
Qed.

End Running.

(** ** The History Tracker *)

Lemma set_scored_on_locations_twice l1 l2 a :
  set_scored_on_locations l2 (set_scored_on_locations l1 a)
  = set_scored_on_locations l2 a.
Proof. reflexivity. Qed.

Lemma set_scored_on_locations_same a l :
  scored_on_locations a = Some l -> set_scored_on_locations l a = a.
Proof. destruct a as [c s]; simpl; intros ->; reflexivity. Qed.

Lemma breach_entries_cons e es :
  breach_entries (e :: es)
  = (if opponent_owned e then [encode_coord (be_location e)] else [])
    ++ breach_entries es.
Proof. unfold breach_entries. simpl. destruct (opponent_owned e); reflexivity. Qed.

Lemma breach_entries_app es1 es2 :
  breach_entries (es1 ++ es2) = breach_entries es1 ++ breach_entries es2.
Proof. unfold breach_entries. now rewrite filter_app, map_app. Qed.

Lemma breach_entries_length es :
  List.length (breach_entries es) = count_opponent_owned es.
Proof.
  induction es as [|e es IH]; [reflexivity|].
  rewrite breach_entries_cons, length_app, IH. simpl.
  destruct (opponent_owned e); reflexivity.
Qed.

(** One well-formed breach entry: appended when it is not the player's own,
    dropped otherwise. *)
Lemma record_breach_encoded e a l :
  scored_on_locations a = Some l ->
  record_breach (encode_breach e) a
  = (Ok tt, set_scored_on_locations (l ++ breach_entries [e]) a).
Proof.
  intros Hl. unfold record_breach, encode_breach, breach_entries. simpl.
  unfold bind, lift_result, opponent_owned. simpl.
  destruct (be_owner e =? 1); simpl.
  - unfold ret. rewrite app_nil_r, set_scored_on_locations_same; auto.
  - unfold append_scored_on_location, get_scored_on_locations, bind, get, modify.
    rewrite Hl. reflexivity.
Qed.

Lemma record_breaches_encoded es : forall a l,
  scored_on_locations a = Some l ->
  for_each (map encode_breach es) record_breach a
  = (Ok tt, set_scored_on_locations (l ++ breach_entries es) a).
Proof.
  induction es as [|e es IH]; intros a l Hl.
  - simpl. unfold ret, breach_entries. simpl.
    rewrite app_nil_r, set_scored_on_locations_same; auto.
  - simpl map. simpl for_each.
    rewrite (bind_ok _ _ _ _ _ (record_breach_encoded e a l Hl)).
    rewrite (IH _ (l ++ breach_entries [e])) by reflexivity.
    rewrite set_scored_on_locations_twice, <- app_assoc.
    now rewrite <- breach_entries_app.
Qed.

(** A well-formed frame returns normally and appends, in order, the
    location of each breach that is not the player's own. *)
Lemma on_action_frame_carries state es a l :
  carries state es ->
  scored_on_locations a = Some l ->
  on_action_frame state a
  = (Ok tt, set_scored_on_locations (l ++ breach_entries es) a).
Proof.
  intros (events & Hev & Hbr) Hl. unfold on_action_frame.
  unfold bind at 1. unfold lift_result at 1. rewrite Hev.
  unfold bind at 1. unfold lift_result at 1. rewrite Hbr.
  unfold bind at 1. unfold lift_result at 1. simpl iterate.
  now apply record_breaches_encoded.
Qed.

Lemma on_action_frames_carry frames : forall ess a l,
  Forall2 carries frames ess ->
  scored_on_locations a = Some l ->
  on_action_frames frames a
  = (Ok tt, set_scored_on_locations (l ++ breach_entries (List.concat ess)) a).
Proof.
  unfold on_action_frames.
  induction frames as [|f frames IH]; intros ess a l HF Hl; inversion HF; subst.
  - simpl. unfold ret, breach_entries. simpl.
    rewrite app_nil_r, set_scored_on_locations_same; auto.
  - simpl for_each.
    rewrite (bind_ok _ _ _ _ _ (on_action_frame_carries _ _ _ _ H1 Hl)).
    rewrite (IH _ _ (l ++ breach_entries y) H3) by reflexivity.
    rewrite set_scored_on_locations_twice, <- app_assoc. simpl List.concat.
    now rewrite breach_entries_app.
Qed.

(** X5. When [on_game_start] returns normally, it has bound the tracker to
    the empty list. *)
Lemma on_game_start_empties cfg a a' :
  on_game_start cfg a = (Ok tt, a') -> scored_on_locations a' = Some [].
Proof.
  unfold on_game_start. unfold bind at 1. unfold modify at 1.
  unfold bind at 1.
  destruct (for_each _ _ _) as [[[]|e] s1]; [|discriminate].
  unfold modify. intros E. inversion E. reflexivity.
Qed.

Lemma frame_of_carries es : carries (frame_of es) es.
Proof. exists (PDict [("breach", PList (map encode_breach es))]). split; reflexivity. Qed.

Lemma breach_entries_In v es :
  In v (breach_entries es) ->
  exists e, In e es /\ opponent_owned e = true /\ v = encode_coord (be_location e).
Proof.
  unfold breach_entries. rewrite in_map_iff. intros (e & <- & Hin).
  apply filter_In in Hin. destruct Hin as [Hin Hopp]. now exists e.
Qed.

(** C2. Starting from the empty tracker that [on_game_start] leaves, a
    sequence of well-formed action frames is processed without an
    exception, and afterwards the tracker holds exactly the locations of
    the breaches whose owner flag is not the player's own, in the order of
    delivery and with repetitions kept: its length is the number of such
    breaches, and each entry comes from one of them, so a breach with the
    player's own flag contributes no entry. *)
Theorem history_tracker_records_opponent_breaches
  (frames : list pyval) (ess : list (list breach_event)) (a : algo) :
  Forall2 carries frames ess ->
  scored_on_locations a = Some [] ->
  exists a',
    on_action_frames frames a = (Ok tt, a') /\
    scored_on_locations a'
    = Some (map (fun e => encode_coord (be_location e))
              (filter opponent_owned (List.concat ess))) /\
    option_map (@List.length pyval) (scored_on_locations a')
    = Some (count_opponent_owned (List.concat ess)) /\
    (forall v, In v (breach_entries (List.concat ess)) ->
       exists e, In e (List.concat ess) /\ opponent_owned e = true /\
                 v = encode_coord (be_location e)).
Proof.
  intros HF Ha.
  exists (set_scored_on_locations (breach_entries (List.concat ess)) a).
  split; [|split; [|split]].
  - now rewrite (on_action_frames_carry frames ess a [] HF Ha).
  - reflexivity.
  - simpl. now rewrite breach_entries_length.
  - intros v Hv. exact (breach_entries_In v _ Hv).
Qed.

Lemma history_tracker_records_opponent_breaches_witness :
  exists a',
    on_action_frames (map frame_of sample_frames) (algo_with []) = (Ok tt, a') /\
    scored_on_locations a'
    = Some (map (fun e => encode_coord (be_location e))
              (filter opponent_owned (List.concat sample_frames))) /\
    option_map (@List.length pyval) (scored_on_locations a')
    = Some (count_opponent_owned (List.concat sample_frames)) /\
    (forall v, In v (breach_entries (List.concat sample_frames)) ->
       exists e, In e (List.concat sample_frames) /\ opponent_owned e = true /\
                 v = encode_coord (be_location e)).
Proof.
  apply (history_tracker_records_opponent_breaches
           (map frame_of sample_frames) sample_frames (algo_with [])).
  - repeat constructor; apply frame_of_carries.
  - reflexivity.
Defined.

(** The sample frames leave three entries, the repeated breach twice. *)
Example sample_frames_tracker :
  snd (on_action_frames (map frame_of sample_frames) (algo_with []))
  = algo_with [encode_coord (1, 12); encode_coord (1, 12); encode_coord (26, 12)].
Proof. reflexivity. Qed.

(** ** Malformed action frames *)

Lemma record_breach_short fields a :
  (List.length fields < 5)%nat ->
  record_breach (PList fields) a = (Raise IndexError, a).
Proof.
  intros Hlen. unfold record_breach, bind, lift_result. simpl.
  destruct fields as [|f0 [|f1 [|f2 [|f3 [|f4 rest]]]]]; simpl in *;
    try reflexivity; lia.
Qed.

(** C10, as the module has it: a frame that lacks the [events] key, or
    whose events lack the [breach] key, raises [KeyError] out of
    [on_action_frame] and leaves the tracker as it was; a breach entry with
    fewer than five fields raises [IndexError] out of [on_action_frame]
    after the breaches before it in the frame have been recorded. *)
Theorem on_action_frame_malformed_raises (a : algo) (l : list pyval) :
  scored_on_locations a = Some l ->
  (forall items,
     dict_get items "events" = None ->
     on_action_frame (PDict items) a = (Raise (KeyError (PStr "events")), a)) /\
  (forall state items,
     getitem_str state "events" = Ok (PDict items) ->
     dict_get items "breach" = None ->
     on_action_frame state a = (Raise (KeyError (PStr "breach")), a)) /\
  (forall state events es fields rest,
     getitem_str state "events" = Ok events ->
     getitem_str events "breach"
     = Ok (PList (map encode_breach es ++ PList fields :: rest)) ->
     (List.length fields < 5)%nat ->
     on_action_frame state a
     = (Raise IndexError, set_scored_on_locations (l ++ breach_entries es) a)).
Proof.
  intros Hl. split; [|split].
  - intros items Hnone. unfold on_action_frame, bind, lift_result. simpl.
    now rewrite Hnone.
  - intros state items Hev Hnone. unfold on_action_frame.
    unfold bind at 1. unfold lift_result at 1. rewrite Hev.
    unfold bind, lift_result. simpl. now rewrite Hnone.
  - intros state events es fields rest Hev Hbr Hlen. unfold on_action_frame.
    unfold bind at 1. unfold lift_result at 1. rewrite Hev.
    unfold bind at 1. unfold lift_result at 1. rewrite Hbr.
    unfold bind at 1. unfold lift_result at 1. simpl iterate. cbv beta iota.
    rewrite (for_each_app _ _ _ _ _ (record_breaches_encoded es a l Hl)).
    simpl for_each. apply bind_raise.
    rewrite record_breach_short by assumption. reflexivity.
Qed.

Lemma on_action_frame_malformed_raises_witness :
  on_action_frame (PDict frame_without_events) (algo_with [])
  = (Raise (KeyError (PStr "events")), algo_with []) /\
  on_action_frame frame_without_breach (algo_with [])
  = (Raise (KeyError (PStr "breach")), algo_with []) /\
  on_action_frame frame_with_short_entry (algo_with [])
  = (Raise IndexError,
     set_scored_on_locations ([] ++ breach_entries [sample_breach 1 12 2])
       (algo_with [])).
Proof.
  pose proof (on_action_frame_malformed_raises (algo_with []) [] eq_refl)
    as (H1 & H2 & H3).
  split; [|split].
  - apply H1. reflexivity.
  - apply (H2 _ [("attack", PList [])]); reflexivity.
  - apply (H3 _ (PDict [("breach",
                         PList (map encode_breach [sample_breach 1 12 2]
                                ++ PList [encode_coord (3, 10)] :: []))])
              [sample_breach 1 12 2] [encode_coord (3, 10)] []).
    + reflexivity.
    + reflexivity.
    + simpl. lia.
Defined.

(** C10 as stated fails: the frame without an [events] key is not skipped,
    it raises; and the frame whose second breach entry is short both raises
    and changes the tracker. *)
Lemma malformed_frame_not_skipped :
  on_action_frame (PDict frame_without_events) (algo_with [])
  <> (Ok tt, algo_with []) /\
  fst (on_action_frame frame_with_short_entry (algo_with [])) = Raise IndexError /\
  snd (on_action_frame frame_with_short_entry (algo_with []))
  = algo_with [encode_coord (1, 12)].
Proof.
  split; [|split].
  - vm_compute. discriminate.
  - reflexivity.
  - reflexivity.
Qed.

(** The exception of a malformed frame ends the delivery: the frames after
    it are not processed by [on_action_frames]. *)
Lemma on_action_frames_stop_at_malformed frames a :
  on_action_frames (PDict frame_without_events :: frames) a
  = (Raise (KeyError (PStr "events")), a).
Proof. reflexivity. Qed.

(** ** Calls made during a turn *)

Section TurnCalls.

Context {GS : Type} `{BattlefieldInterface GS}.

Lemma emits_ret {A} P (a : A) : emits (GS := GS) P (ret a).
Proof.
  intros t. exists a, t, []. rewrite app_nil_r. repeat split. constructor.
Qed.

Lemma emits_bind {A B} P (m : M (turn GS) A) (k : A -> M (turn GS) B) :
  emits P m -> (forall a, emits P (k a)) -> emits P (bind m k).
Proof.
  intros Hm Hk t.
  destruct (Hm t) as (a & t1 & new1 & E1 & S1 & C1 & F1).
  destruct (Hk a t1) as (b & t2 & new2 & E2 & S2 & C2 & F2).
  exists b, t2, (new1 ++ new2). rewrite (bind_ok _ _ _ _ _ E1).
  repeat split; auto.
  - congruence.
  - rewrite C2, C1. now rewrite app_assoc.
  - apply Forall_app. now split.
Qed.

Lemma emits_weaken {A} (P Q : call -> Prop) (m : M (turn GS) A) :
  (forall x, P x -> Q x) -> emits P m -> emits Q m.
Proof.
  intros HPQ Hm t. destruct (Hm t) as (a & t' & new & E & S & C & F).
  exists a, t', new. repeat split; auto. eapply Forall_impl; eauto.
Qed.

Lemma emits_when P c (m : M (turn GS) unit) :
  emits P m -> emits P (when c m).
Proof. destruct c; simpl; auto using emits_ret. Qed.

Lemma emits_for_each {A} P (xs : list A) (body : A -> M (turn GS) unit) :
  (forall x, In x xs -> emits P (body x)) -> emits P (for_each xs body).
Proof.
  induction xs as [|x xs IH]; intros Hb; simpl.
  - apply emits_ret.
  - apply emits_bind.
    + apply Hb. now left.
    + intros _. apply IH. intros y Hy. apply Hb. now right.
Qed.

Lemma run_get_resources index t :
  get_resources index t = (Ok (gs_get_resources (game_state t) index), t).
Proof. reflexivity. Qed.

Lemma run_turn_number t :
  turn_number t = (Ok (gs_turn_number (game_state t)), t).
Proof. reflexivity. Qed.

Lemma run_can_spawn k c t :
  can_spawn k c t
  = (Ok (gs_can_spawn (game_state t) k c),
     record_call (CanSpawn k c (gs_can_spawn (game_state t) k c))
       (game_state t) t).
Proof. reflexivity. Qed.

Lemma run_attempt_spawn k locations num t :
  attempt_spawn k locations num t
  = (Ok tt, record_call (AttemptSpawn k locations num)
              (gs_attempt_spawn (game_state t) k locations num) t).
Proof. reflexivity. Qed.

Lemma run_attempt_upgrade k locations t :
  attempt_upgrade k locations t
  = (Ok tt, record_call (AttemptUpgrade k locations)
              (gs_attempt_upgrade (game_state t) k locations) t).
Proof. reflexivity. Qed.

Lemma emits_get_resources P index : emits P (get_resources index).
Proof.
  intros t. exists (gs_get_resources (game_state t) index), t, [].
  rewrite app_nil_r. repeat split. constructor.
Qed.

Lemma emits_can_spawn (P : call -> Prop) k c :
  (forall answer, P (CanSpawn k c answer)) -> emits P (can_spawn k c).
Proof.
  intros HP t. rewrite run_can_spawn.
  eexists _, _, [_]. repeat split. constructor; [apply HP | constructor].
Qed.

Lemma emits_attempt_spawn (P : call -> Prop) k locations num :
  P (AttemptSpawn k locations num) -> emits P (attempt_spawn k locations num).
Proof.
  intros HP t. rewrite run_attempt_spawn.
  eexists _, _, [_]. repeat split. constructor; [apply HP | constructor].
Qed.

Lemma emits_attempt_upgrade (P : call -> Prop) k locations :
  P (AttemptUpgrade k locations) -> emits P (attempt_upgrade k locations).
Proof.
  intros HP t. rewrite run_attempt_upgrade.
  eexists _, _, [_]. repeat split. constructor; [apply HP | constructor].
Qed.

(** ** Reactive defence *)

Lemma build_reactive_defense_loop :
  Defence.build_reactive_defense
  = (locations <- self_scored_on_locations ;; for_each locations reinforce).
Proof. reflexivity. Qed.

Lemma reinforce_encoded c t :
  reinforce (encode_coord c) t
  = (Ok tt, record_call (reinforcement c)
              (gs_attempt_spawn (game_state t) TURRET
                 [(fst c + 2, snd c + 2)] 1) t).
Proof. reflexivity. Qed.

Lemma reinforce_each (cs : list coord) : forall t,
  for_each (map encode_coord cs) reinforce t
  = (Ok tt,
     {| self := self t;
        game_state :=
          fold_left
            (fun g c => gs_attempt_spawn g TURRET [(fst c + 2, snd c + 2)] 1)
            cs (game_state t);
        calls := calls t ++ map reinforcement cs |}).
Proof.
  induction cs as [|c cs IH]; intros t.
  - simpl. unfold ret. rewrite app_nil_r. now destruct t.
  - simpl map. simpl for_each.
    rewrite (bind_ok _ _ _ _ _ (reinforce_encoded c t)). rewrite IH.
    simpl. now rewrite <- app_assoc.
Qed.

(** X20. Called on a tracker of coordinate pairs, repetitions included,
    [build_reactive_defense] issues for each entry, in order, exactly one
    turret placement intent, at the entry's coordinate moved by two columns
    and two rows, and nothing else. *)
Theorem reactive_defense_one_turret_per_entry
  (cfg : option pyval) (cs : list coord) (g : GS) (earlier : list call) :
  Defence.build_reactive_defense
    {| self := {| config := cfg;
                  scored_on_locations := Some (map encode_coord cs) |};
       game_state := g; calls := earlier |}
  = (Ok tt,
     {| self := {| config := cfg;
                   scored_on_locations := Some (map encode_coord cs) |};
        game_state :=
          fold_left
            (fun g' c => gs_attempt_spawn g' TURRET [(fst c + 2, snd c + 2)] 1)
            cs g;
        calls := earlier
                 ++ map (fun c => AttemptSpawn TURRET [(fst c + 2, snd c + 2)] 1)
                      cs |}).
Proof.
  rewrite build_reactive_defense_loop. unfold bind at 1.
  unfold self_scored_on_locations, zoom, get_scored_on_locations, bind, get.
  simpl. apply (reinforce_each cs).
Qed.

End TurnCalls.

(** ** The decision pass *)

Section PassProperties.

Context {GS : Type} `{BattlefieldInterface GS}.

Variable AlgoCore_attr : string -> option (@method GS).

(** X16. Attribute lookup on an [AlgoStrategy] instance finds each of the
    seven helpers that [starter_strategy] calls in the base class or
    nowhere: never in [AlgoStrategy], never in [Defence]. *)
Lemma resolve_helper (h : helper) :
  resolve AlgoCore_attr (attr_name h)
  = match AlgoCore_attr (attr_name h) with
    | Some _ => Some cls_AlgoCore
    | None => None
    end.
Proof.
  unfold resolve. destruct h; simpl; destruct (AlgoCore_attr _); reflexivity.
Qed.

Lemma Defence_not_a_base : ~ In cls_Defence (mro cls_AlgoStrategy).
Proof. simpl. intros [E|[E|[]]]; discriminate. Qed.

Lemma self_call_missing (h : helper) (args : list pyval) (t : turn GS) :
  AlgoCore_attr (attr_name h) = None ->
  self_call AlgoCore_attr h args t = (Raise (AttributeError (attr_name h)), t).
Proof. intros E. unfold self_call. now rewrite E. Qed.

(** C1. When the base class provides no [build_defences], the decision pass
    raises [AttributeError] at the first statement of [starter_strategy],
    from every turn state: the exception escapes [on_turn], no call is made
    on the game state and the turn is not submitted. *)
Theorem on_turn_raises_AttributeError (t : turn GS) :
  AlgoCore_attr "build_defences" = None ->
  on_turn AlgoCore_attr t = (Raise (AttributeError "build_defences"), t).
Proof.
  intros E. unfold on_turn, starter_strategy, defence_phases.
  do 3 apply bind_raise.
  now apply (self_call_missing build_defences).
Qed.

(** C7. Whatever the tracker holds, the decision pass issues no turret
    placement intent for any of its entries: when the base class provides
    no [build_defences], [on_turn] raises [AttributeError] before
    [build_reactive_defense] is looked up, and the pass has made no call on
    the game state. *)
Theorem tracker_entries_are_not_reinforced_in_the_pass
  (cfg : option pyval) (entries : list pyval) (g : GS) :
  AlgoCore_attr "build_defences" = None ->
  let t := start_turn {| config := cfg;
                         scored_on_locations := Some entries |} g in
  fst (on_turn AlgoCore_attr t) = Raise (AttributeError "build_defences") /\
  calls (snd (on_turn AlgoCore_attr t)) = [].
Proof.
  intros E. cbv zeta. unfold on_turn, starter_strategy, defence_phases.
  rewrite (bind_raise _ _ _ (AttributeError "build_defences")
             (start_turn {| config := cfg; scored_on_locations := Some entries |} g)).
  - split; reflexivity.
  - do 2 apply bind_raise. now apply (self_call_missing build_defences).
Qed.

(** C4. On a turn with both designated turret cells occupied, whatever the
    balance, the decision pass issues no upgrade intent: when the base
    class provides no [build_defences], [on_turn] raises [AttributeError]
    before [update_defence] is looked up. *)
Theorem occupied_turrets_are_not_upgraded_in_the_pass (a : algo) (g : GS) :
  AlgoCore_attr "build_defences" = None ->
  gs_contains_stationary_unit g (12, 11) = true ->
  gs_contains_stationary_unit g (15, 11) = true ->
  fst (on_turn AlgoCore_attr (start_turn a g))
  = Raise (AttributeError "build_defences") /\
  filter is_upgrade (calls (snd (on_turn AlgoCore_attr (start_turn a g)))) = [].
Proof.
  intros E _ _. unfold on_turn, starter_strategy, defence_phases.
  rewrite (bind_raise _ _ _ (AttributeError "build_defences") (start_turn a g)).
  - split; reflexivity.
  - do 2 apply bind_raise. now apply (self_call_missing build_defences).
Qed.


(** C8. On a turn before the fifth, the offence planner looks up
    [stall_with_interceptors] on [self]; when the base class provides none,
    it raises [AttributeError] and no spawn intent is issued. *)
Theorem early_offence_raises_AttributeError (t : turn GS) :
  gs_turn_number (game_state t) < 5 ->
  AlgoCore_attr "stall_with_interceptors" = None ->
  offence_planner AlgoCore_attr t
  = (Raise (AttributeError "stall_with_interceptors"), t).
Proof.
  intros Htn E. unfold offence_planner.
  rewrite (bind_ok _ _ _ _ _ (run_turn_number t)).
  apply Z.ltb_lt in Htn. rewrite Htn.
  apply bind_raise. now apply (self_call_missing stall_with_interceptors).
Qed.

(** C9. From the fifth turn on, the offence planner looks up
    [detect_enemy_unit] on [self]; when the base class provides none, it
    raises [AttributeError] before any rush candidate is considered, on odd
    and even turns alike, and no spawn intent is issued. *)
Theorem late_offence_raises_AttributeError (t : turn GS) :
  5 <= gs_turn_number (game_state t) ->
  AlgoCore_attr "detect_enemy_unit" = None ->
  offence_planner AlgoCore_attr t
  = (Raise (AttributeError "detect_enemy_unit"), t).
Proof.
  intros Htn E. unfold offence_planner.
  rewrite (bind_ok _ _ _ _ _ (run_turn_number t)).
  apply Z.ltb_ge in Htn. rewrite Htn.
  apply bind_raise. now apply (self_call_missing detect_enemy_unit).
Qed.

(** X2. The early-game gate: before the fifth turn the offence planner is the
    call of [stall_with_interceptors] and nothing else; the density and the
    rush branch are not entered. *)
Lemma early_offence_is_the_stall (m : @method GS) (t : turn GS) :
  gs_turn_number (game_state t) < 5 ->
  AlgoCore_attr "stall_with_interceptors" = Some m ->
  offence_planner AlgoCore_attr t = (m [] ;; ret tt) t.
Proof.
  intros Htn E. unfold offence_planner.
  rewrite (bind_ok _ _ _ _ _ (run_turn_number t)).
  apply Z.ltb_lt in Htn. rewrite Htn.
  unfold self_call. simpl attr_name. now rewrite E.
Qed.

(** X3. The rush branch on an even turn: with a density of at most ten, the
    planner issues the support intent only. *)
Lemma even_turn_no_rush (detect : @method GS) (t t1 : turn GS) (d : pyval) :
  5 <= gs_turn_number (game_state t) ->
  AlgoCore_attr "detect_enemy_unit" = Some detect ->
  detect [PNone; PNone; PList [PInt 14; PInt 15]] t = (Ok d, t1) ->
  gt_ten d = Ok false ->
  gs_turn_number (game_state t1) mod 2 <> 1 ->
  offence_planner AlgoCore_attr t
  = attempt_spawn SUPPORT [(13, 2); (14, 2); (13, 3); (14, 3)] 1 t1.
Proof.
  intros Htn E Hd Hgt Heven. unfold offence_planner.
  rewrite (bind_ok _ _ _ _ _ (run_turn_number t)).
  apply Z.ltb_ge in Htn. rewrite Htn.
  unfold self_call at 1. simpl attr_name. rewrite E.
  rewrite (bind_ok _ _ _ _ _ Hd).
  unfold bind at 1. unfold lift_result at 1. rewrite Hgt.
  rewrite (bind_ok _ _ _ _ _ (run_turn_number t1)).
  apply Z.eqb_neq in Heven. rewrite Heven. reflexivity.
Qed.

(** X4. The rush branch on an odd turn: with a density of at most ten, the
    planner looks up [least_damage_spawn_location]; with none provided it
    raises [AttributeError] and no scout is spawned. *)
Lemma odd_turn_rush_raises (detect : @method GS) (t t1 : turn GS) (d : pyval) :
  5 <= gs_turn_number (game_state t) ->
  AlgoCore_attr "detect_enemy_unit" = Some detect ->
  detect [PNone; PNone; PList [PInt 14; PInt 15]] t = (Ok d, t1) ->
  gt_ten d = Ok false ->
  gs_turn_number (game_state t1) mod 2 = 1 ->
  AlgoCore_attr "least_damage_spawn_location" = None ->
  offence_planner AlgoCore_attr t
  = (Raise (AttributeError "least_damage_spawn_location"), t1).
Proof.
  intros Htn E Hd Hgt Hodd Eld. unfold offence_planner.
  rewrite (bind_ok _ _ _ _ _ (run_turn_number t)).
  apply Z.ltb_ge in Htn. rewrite Htn.
  unfold self_call at 1. simpl attr_name. rewrite E.
  rewrite (bind_ok _ _ _ _ _ Hd).
  unfold bind at 1. unfold lift_result at 1. rewrite Hgt.
  rewrite (bind_ok _ _ _ _ _ (run_turn_number t1)).
  apply Z.eqb_eq in Hodd. rewrite Hodd.
  apply bind_raise. simpl when. apply bind_raise.
  now apply (self_call_missing least_damage_spawn_location).
Qed.

(** X1. [Defence.build_defences] raises [TypeError] from every state, when the
    display of [wall_locations] is evaluated: only the turret intent has
    been issued by then. *)
Lemma build_defences_raises_TypeError (t : turn GS) :
  Defence.build_defences t
  = (Raise TypeError,
     record_call (AttemptSpawn TURRET [(11, 11); (16, 11)] 1)
       (gs_attempt_spawn (game_state t) TURRET [(11, 11); (16, 11)] 1) t).
Proof. reflexivity. Qed.

End PassProperties.

Lemma on_turn_raises_AttributeError_witness :
  on_turn no_helpers opening_turn
  = (Raise (AttributeError "build_defences"), opening_turn).
Proof.
  apply (on_turn_raises_AttributeError no_helpers opening_turn). reflexivity.
Defined.

Lemma tracker_entries_are_not_reinforced_in_the_pass_witness :
  let t := start_turn {| config := None;
                         scored_on_locations :=
                           Some [encode_coord (1, 12); encode_coord (26, 12)] |}
             (game_state breached_turn) in
  fst (on_turn no_helpers t) = Raise (AttributeError "build_defences") /\
  calls (snd (on_turn no_helpers t)) = [].
Proof.
  apply (tracker_entries_are_not_reinforced_in_the_pass no_helpers None
           [encode_coord (1, 12); encode_coord (26, 12)]
           (game_state breached_turn)).
  reflexivity.
Defined.

Lemma occupied_turrets_are_not_upgraded_in_the_pass_witness :
  fst (on_turn no_helpers (start_turn (algo_with []) fortified_board))
  = Raise (AttributeError "build_defences") /\
  filter is_upgrade
    (calls (snd (on_turn no_helpers (start_turn (algo_with []) fortified_board))))
  = [].
Proof.
  apply (occupied_turrets_are_not_upgraded_in_the_pass no_helpers
           (algo_with []) fortified_board); reflexivity.
Defined.


Lemma early_offence_raises_AttributeError_witness :
  offence_planner no_helpers third_turn
  = (Raise (AttributeError "stall_with_interceptors"), third_turn).
Proof.
  apply (early_offence_raises_AttributeError no_helpers third_turn).
  - simpl. lia.
  - reflexivity.
Defined.

Lemma late_offence_raises_AttributeError_witness :
  offence_planner no_helpers seventh_turn
  = (Raise (AttributeError "detect_enemy_unit"), seventh_turn).
Proof.
  apply (late_offence_raises_AttributeError no_helpers seventh_turn).
  - simpl. lia.
  - reflexivity.
Defined.

(** ** The resource policy *)

Lemma spawns_at_other_row c k x y n :
  snd c <> y -> spawns_at c (AttemptSpawn k [(x, y)] n) = false.
Proof.
  intros Hrow. unfold spawns_at, existsb, coord_eqb. cbn [fst snd].
  destruct (Z.eqb_spec (snd c) y); [contradiction|].
  now rewrite andb_false_r.
Qed.

Section PolicyProperties.

Context {GS : Type} `{BattlefieldInterface GS}.

Lemma update_defence_branches :
  Defence.update_defence
  = (structPoints <- get_resources 0 ;;
     scarce <- lift_result (lt_twelve structPoints) ;;
     if scarce then scarce_branch else sufficient_branch).
Proof. reflexivity. Qed.

(** When the comparison of line 174 has an answer, it selects the branch. *)
Lemma update_defence_regime (t : turn GS) (b : bool) :
  lt_twelve (gs_get_resources (game_state t) 0) = Ok b ->
  Defence.update_defence t
  = (if b then scarce_branch else sufficient_branch) t.
Proof.
  intros E. rewrite update_defence_branches.
  rewrite (bind_ok _ _ _ _ _ (run_get_resources 0 t)).
  unfold bind at 1. unfold lift_result at 1. rewrite E. reflexivity.
Qed.

(** When it has none, the exception leaves [update_defence] at once. *)
Lemma update_defence_unordered (t : turn GS) (e : exn) :
  lt_twelve (gs_get_resources (game_state t) 0) = Raise e ->
  Defence.update_defence t = (Raise e, t).
Proof.
  intros E. rewrite update_defence_branches.
  rewrite (bind_ok _ _ _ _ _ (run_get_resources 0 t)).
  unfold bind at 1. unfold lift_result at 1. rewrite E. reflexivity.
Qed.

Ltac emits_steps :=
  repeat first
    [ apply emits_ret
    | apply emits_can_spawn; intros ?
    | apply emits_attempt_spawn
    | apply emits_attempt_upgrade
    | apply emits_when
    | apply emits_for_each; intros ? ?
    | apply emits_bind; [|intros ?] ].

Lemma fill_rows_emits_row_fill : emits row_fill_call fill_rows.
Proof. unfold fill_rows. emits_steps; simpl; auto. Qed.

Lemma fill_rows_emits_support_rows : emits support_rows_differ fill_rows.
Proof.
  unfold fill_rows. emits_steps; simpl; auto; repeat constructor.
Qed.

Lemma fill_rows_emits_scarce : emits scarce_call fill_rows.
Proof.
  eapply emits_weaken; [|apply fill_rows_emits_row_fill].
  intros [k [cx cy] b|k [|[x y] [|? ?]] n| |]; simpl; try contradiction.
  - intros _. split; reflexivity.
  - intros ->. split; [reflexivity|]. now apply spawns_at_other_row.
Qed.

Lemma scarce_branch_emits : emits scarce_call scarce_branch.
Proof.
  unfold scarce_branch.
  do 4 (apply emits_bind; [emits_steps; split; reflexivity | intros ?]).
  apply fill_rows_emits_scarce.
Qed.

Lemma scarce_branch_emits_support_rows :
  emits support_rows_differ scarce_branch.
Proof.
  unfold scarce_branch. emits_steps;
    try apply fill_rows_emits_support_rows; simpl; auto.
Qed.

Lemma sufficient_branch_emits_support_rows :
  emits support_rows_differ sufficient_branch.
Proof.
  unfold sufficient_branch.
  apply emits_bind; [apply emits_can_spawn; simpl; auto|intros b1].
  apply emits_bind; [destruct b1; emits_steps; simpl; auto|intros _].
  apply emits_bind; [apply emits_can_spawn; simpl; auto|intros b2].
  apply emits_bind; [destruct b2; emits_steps; simpl; auto|intros _].
  apply fill_rows_emits_support_rows.
Qed.

(** C3. When the balance that [get_resources] answers is below 12,
    [update_defence] returns normally and every call it makes is a
    pre-check or a placement: it issues no upgrade intent, and it issues
    no placement intent at the second designated turret cell [(15, 11)]
    either. *)
Theorem scarce_regime_never_places_second_turret (t : turn GS) :
  lt_twelve (gs_get_resources (game_state t) 0) = Ok true ->
  exists t' new,
    Defence.update_defence t = (Ok tt, t') /\
    calls t' = calls t ++ new /\
    Forall (fun x => is_upgrade x = false /\ spawns_at (15, 11) x = false) new.
Proof.
  intros Hsp. rewrite (update_defence_regime t true Hsp).
  destruct (scarce_branch_emits t) as ([] & t' & new & E & _ & C & F).
  now exists t', new.
Qed.

(** C6. In both regimes, every support pre-check of [update_defence] is
    asked for a cell of row 12 and every support placement intent is issued
    for a cell of row 13: the cell placed on is never the cell checked.
    [update_defence] returns normally whenever the comparison of the
    balance with 12 has an answer. *)
Theorem support_fill_checks_one_row_places_on_another (t : turn GS) :
  exists r t' new,
    Defence.update_defence t = (r, t') /\
    (forall b, lt_twelve (gs_get_resources (game_state t) 0) = Ok b ->
               r = Ok tt) /\
    calls t' = calls t ++ new /\
    Forall support_rows_differ new.
Proof.
  destruct (lt_twelve (gs_get_resources (game_state t) 0)) as [b|e] eqn:E.
  - rewrite (update_defence_regime t b E).
    assert (Hb : emits support_rows_differ
                   (if b then scarce_branch else sufficient_branch)).
    { destruct b; [apply scarce_branch_emits_support_rows
                  |apply sufficient_branch_emits_support_rows]. }
    destruct (Hb t) as ([] & t' & new & Eb & _ & C & F).
    exists (Ok tt), t', new. repeat split; auto.
  - rewrite (update_defence_unordered t e E).
    exists (Raise e), t, []. rewrite app_nil_r. repeat split; auto.
    intros b Hb. discriminate.
Qed.

End PolicyProperties.

Section SufficientRegime.

Context {GS : Type} `{BattlefieldInterface GS}.

Lemma row_fill_call_quiet x : row_fill_call x -> quiet_call x.
Proof.
  destruct x as [k [cx cy] b|k [|[x y] [|? ?]] n| |]; simpl; try contradiction.
  - intros _. repeat split.
  - intros ->. repeat split; now apply spawns_at_other_row.
Qed.

Lemma filter_no_upgrade (l : list call) :
  Forall quiet_call l -> filter is_upgrade l = [].
Proof.
  induction 1 as [|x l [Hx _] _ IH]; simpl; [reflexivity|].
  now rewrite Hx.
Qed.

(** Closes a goal about a branch whose remaining statements are the row
    fills. *)
Ltac finish_with_fill_rows :=
  match goal with
  | |- context [fill_rows ?s] =>
      let t' := fresh "t'" in
      let tail := fresh "tail" in
      let E := fresh "E" in
      let C := fresh "C" in
      let F := fresh "F" in
      destruct (fill_rows_emits_row_fill s) as ([] & t' & tail & E & _ & C & F);
      exists t', tail; split; [exact E|]; split;
      [ rewrite C; simpl; now rewrite <- !app_assoc
      | eapply Forall_impl; [apply row_fill_call_quiet|exact F] ]
  end.

Lemma sufficient_branch_calls (t : turn GS) :
  let g := game_state t in
  let b1 := gs_can_spawn g TURRET (12, 11) in
  let b2 := gs_can_spawn (after_turret g (12, 11)) TURRET (15, 11) in
  exists t' tail,
    sufficient_branch t = (Ok tt, t') /\
    calls t' = calls t
               ++ [CanSpawn TURRET (12, 11) b1; turret_intent b1 (12, 11);
                   CanSpawn TURRET (15, 11) b2; turret_intent b2 (15, 11)]
               ++ tail /\
    Forall quiet_call tail.
Proof.
  cbv zeta. unfold sufficient_branch, after_turret.
  rewrite (bind_ok _ _ _ _ _ (run_can_spawn TURRET (12, 11) t)).
  destruct (gs_can_spawn (game_state t) TURRET (12, 11)) eqn:E1;
    [ rewrite (bind_ok _ _ _ _ _ (run_attempt_spawn TURRET [(12, 11)] 1 _))
    | rewrite (bind_ok _ _ _ _ _ (run_attempt_upgrade TURRET [(12, 11)] _)) ];
    rewrite (bind_ok _ _ _ _ _ (run_can_spawn TURRET (15, 11) _));
    simpl game_state;
    (destruct (gs_can_spawn _ TURRET (15, 11)) eqn:E2;
     [ rewrite (bind_ok _ _ _ _ _ (run_attempt_spawn TURRET [(15, 11)] 1 _))
     | rewrite (bind_ok _ _ _ _ _ (run_attempt_upgrade TURRET [(15, 11)] _)) ]);
    finish_with_fill_rows.
Qed.

(** X18. Called on a game state whose [get_resources] answers a balance
    that is not below 12, [update_defence] returns normally and its calls
    are, in order: the pre-check of [(12, 11)], then a placement intent
    there when the pre-check succeeded and an upgrade intent there when it
    failed, for whatever reason; the same for [(15, 11)]; then the calls of
    the row fills, none of which is an upgrade or a placement at either
    cell. *)
Theorem sufficient_regime_upgrades_when_pre_check_fails (t : turn GS) :
  lt_twelve (gs_get_resources (game_state t) 0) = Ok false ->
  let g := game_state t in
  let b1 := gs_can_spawn g TURRET (12, 11) in
  let b2 := gs_can_spawn (after_turret g (12, 11)) TURRET (15, 11) in
  exists t' tail,
    Defence.update_defence t = (Ok tt, t') /\
    calls t' = calls t
               ++ [CanSpawn TURRET (12, 11) b1; turret_intent b1 (12, 11);
                   CanSpawn TURRET (15, 11) b2; turret_intent b2 (15, 11)]
               ++ tail /\
    Forall quiet_call tail.
Proof.
  intros Hsp. rewrite (update_defence_regime t false Hsp).
  apply sufficient_branch_calls.
Qed.

(** X19. Called on a game state whose [get_resources] answers a balance
    that is not below 12, with both designated turret cells occupied, on a
    game state that refuses a placement on an occupied cell and keeps a
    unit through an upgrade attempt, [update_defence] issues exactly two
    upgrade intents, one for [(12, 11)] and one for [(15, 11)], and no
    placement intent at either cell. *)
Theorem sufficient_regime_upgrades_occupied_turrets (t : turn GS) :
  (forall g k c,
     gs_contains_stationary_unit g c = true -> gs_can_spawn g k c = false) ->
  (forall g k locations c,
     gs_contains_stationary_unit g c = true ->
     gs_contains_stationary_unit (gs_attempt_upgrade g k locations) c = true) ->
  lt_twelve (gs_get_resources (game_state t) 0) = Ok false ->
  gs_contains_stationary_unit (game_state t) (12, 11) = true ->
  gs_contains_stationary_unit (game_state t) (15, 11) = true ->
  exists t' new,
    Defence.update_defence t = (Ok tt, t') /\
    calls t' = calls t ++ new /\
    filter is_upgrade new
    = [AttemptUpgrade TURRET [(12, 11)]; AttemptUpgrade TURRET [(15, 11)]] /\
    Forall (fun x => spawns_at (12, 11) x = false /\
                     spawns_at (15, 11) x = false) new.
Proof.
  intros Hrefuse Hkeep Hsp H12 H15.
  rewrite (update_defence_regime t false Hsp).
  destruct (sufficient_branch_calls t) as (t' & tail & E & C & F).
  assert (B1 : gs_can_spawn (game_state t) TURRET (12, 11) = false)
    by now apply Hrefuse.
  assert (B2 : gs_can_spawn (after_turret (game_state t) (12, 11))
                 TURRET (15, 11) = false).
  { apply Hrefuse. unfold after_turret. rewrite B1. now apply Hkeep. }
  rewrite B1, B2 in C. simpl turret_intent in C.
  exists t', ([CanSpawn TURRET (12, 11) false; AttemptUpgrade TURRET [(12, 11)];
               CanSpawn TURRET (15, 11) false; AttemptUpgrade TURRET [(15, 11)]]
              ++ tail).
  split; [exact E|]. split; [exact C|]. split.
  - simpl. now rewrite (filter_no_upgrade tail F).
  - repeat (constructor; [split; reflexivity|]).
    eapply Forall_impl; [|exact F]. intros x (_ & Hx). exact Hx.
Qed.

End SufficientRegime.

(** ** The resource policy on the concrete board *)

Lemma board_occupied_refuses (b : Board.board) (k : unit_kind) (c : coord) :
  Board.occupied b c = true -> Board.board_can_spawn b k c = false.
Proof.
  intros Hocc. unfold Board.board_can_spawn. rewrite Hocc. simpl.
  now rewrite andb_false_r.
Qed.

Lemma upgrade_one_keeps_units (b : Board.board) (k : unit_kind) (c : coord) :
  Board.b_units (Board.upgrade_one b k c) = Board.b_units b.
Proof. unfold Board.upgrade_one. now destruct (_ && _). Qed.

Lemma board_upgrade_keeps_units (locations : list coord) :
  forall (b : Board.board) (k : unit_kind) (c : coord),
    Board.occupied b c = true ->
    Board.occupied (Board.board_attempt_upgrade b k locations) c = true.
Proof.
  unfold Board.board_attempt_upgrade.
  induction locations as [|l locations IH]; intros b k c Hocc; simpl.
  - exact Hocc.
  - apply IH. unfold Board.occupied in *. now rewrite upgrade_one_keeps_units.
Qed.

Lemma scarce_regime_never_places_second_turret_witness :
  exists t' new,
    Defence.update_defence scarce_turn = (Ok tt, t') /\
    calls t' = calls scarce_turn ++ new /\
    Forall (fun x => is_upgrade x = false /\ spawns_at (15, 11) x = false) new.
Proof.
  apply (scarce_regime_never_places_second_turret scarce_turn).
  reflexivity.
Defined.

(** On the scarce turn the pre-check of [(15, 11)] succeeds and the
    placement that follows it is issued for [(12, 11)] again. *)
Example scarce_turn_turret_calls :
  filter about_turrets (calls (snd (Defence.update_defence scarce_turn)))
  = [CanSpawn TURRET (12, 11) true; AttemptSpawn TURRET [(12, 11)] 1;
     CanSpawn TURRET (15, 11) true; AttemptSpawn TURRET [(12, 11)] 1].
Proof. reflexivity. Qed.

(** On a turn where supports are affordable, each support is placed on the
    row above the cell that was checked. *)
Example support_turn_support_calls :
  filter about_supports (calls (snd (Defence.update_defence support_turn)))
  = [CanSpawn SUPPORT (1, 12) true; AttemptSpawn SUPPORT [(1, 13)] 1;
     CanSpawn SUPPORT (2, 12) true; AttemptSpawn SUPPORT [(2, 13)] 1;
     CanSpawn SUPPORT (3, 12) false; CanSpawn SUPPORT (24, 12) false;
     CanSpawn SUPPORT (25, 12) false; CanSpawn SUPPORT (26, 12) false].
Proof. reflexivity. Qed.

Lemma sufficient_regime_upgrades_occupied_turrets_witness :
  exists t' new,
    Defence.update_defence fortified_balance_turn = (Ok tt, t') /\
    calls t' = calls fortified_balance_turn ++ new /\
    filter is_upgrade new
    = [AttemptUpgrade TURRET [(12, 11)]; AttemptUpgrade TURRET [(15, 11)]] /\
    Forall (fun x => spawns_at (12, 11) x = false /\
                     spawns_at (15, 11) x = false) new.
Proof.
  apply (sufficient_regime_upgrades_occupied_turrets fortified_balance_turn).
  - exact board_occupied_refuses.
  - intros g k locations c. apply board_upgrade_keeps_units.
  - reflexivity.
  - reflexivity.
  - reflexivity.
Defined.

Lemma sufficient_regime_upgrades_when_pre_check_fails_witness :
  exists t' tail,
    Defence.update_defence sufficient_turn = (Ok tt, t') /\
    calls t' = calls sufficient_turn
               ++ [CanSpawn TURRET (12, 11) true; AttemptSpawn TURRET [(12, 11)] 1;
                   CanSpawn TURRET (15, 11) true;
                   AttemptSpawn TURRET [(15, 11)] 1]
               ++ tail /\
    Forall quiet_call tail.
Proof.
  exact (sufficient_regime_upgrades_when_pre_check_fails sufficient_turn
           eq_refl).
Defined.

(** ** The auxiliary facts on sample inputs *)

Lemma on_game_start_empties_witness :
  scored_on_locations (snd (on_game_start sample_config fresh_algo)) = Some [].
Proof.
  apply (on_game_start_empties sample_config fresh_algo). reflexivity.
Defined.

Lemma early_offence_is_the_stall_witness :
  offence_planner sample_base third_turn
  = (sample_stall [] ;; ret tt) third_turn.
Proof.
  apply (early_offence_is_the_stall sample_base sample_stall third_turn).
  - simpl. lia.
  - reflexivity.
Defined.

Lemma even_turn_no_rush_witness :
  offence_planner sample_base eighth_turn
  = attempt_spawn SUPPORT [(13, 2); (14, 2); (13, 3); (14, 3)] 1 eighth_turn.
Proof.
  apply (even_turn_no_rush sample_base sample_detect eighth_turn eighth_turn
           (PInt 3)).
  - simpl. lia.
  - reflexivity.
  - reflexivity.
  - reflexivity.
  - simpl. discriminate.
Defined.

Lemma odd_turn_rush_raises_witness :
  offence_planner sample_base seventh_turn
  = (Raise (AttributeError "least_damage_spawn_location"), seventh_turn).
Proof.
  apply (odd_turn_rush_raises sample_base sample_detect seventh_turn
           seventh_turn (PInt 3)).
  - simpl. lia.
  - reflexivity.
  - reflexivity.
  - reflexivity.
  - reflexivity.
  - reflexivity.
Defined.

(** * Further properties *)

(** ** Action frames with arbitrary payloads *)

Lemma record_breach_extends breach a l :
  scored_on_locations a = Some l ->
  exists extra,
    snd (record_breach breach a) = set_scored_on_locations (l ++ extra) a.
Proof.
  intros Hl. unfold record_breach, bind, lift_result.
  destruct (getitem_int breach 0) as [location|e]; simpl.
  2: { exists []. now rewrite app_nil_r, set_scored_on_locations_same. }
  destruct (getitem_int breach 4) as [owner|e]; simpl.
  2: { exists []. now rewrite app_nil_r, set_scored_on_locations_same. }
  destruct (eq_one owner); simpl.
  - exists []. now rewrite app_nil_r, set_scored_on_locations_same.
  - exists [location].
    unfold append_scored_on_location, get_scored_on_locations, bind, get, modify.
    now rewrite Hl.
Qed.

Lemma record_breaches_extend items : forall a l,
  scored_on_locations a = Some l ->
  exists extra,
    snd (for_each items record_breach a)
    = set_scored_on_locations (l ++ extra) a.
Proof.
  induction items as [|x items IH]; intros a l Hl.
  - exists []. simpl. now rewrite app_nil_r, set_scored_on_locations_same.
  - destruct (record_breach_extends x a l Hl) as (e1 & E1).
    simpl for_each. unfold bind.
    destruct (record_breach x a) as [[[]|e] a1] eqn:Ex; simpl in E1; subst a1.
    + destruct (IH (set_scored_on_locations (l ++ e1) a) (l ++ e1) eq_refl)
        as (e2 & E2).
      exists (e1 ++ e2). rewrite E2.
      now rewrite set_scored_on_locations_twice, app_assoc.
    + now exists e1.
Qed.

(** X6. Whatever the payload of a frame, and whether [on_action_frame]
    returns or raises, it only appends to the tracker: the entries that
    were there stay, in their order, and the stored configuration is not
    touched. *)
Theorem on_action_frame_only_appends (state : pyval) (a : algo) (l : list pyval) :
  scored_on_locations a = Some l ->
  exists extra,
    snd (on_action_frame state a) = set_scored_on_locations (l ++ extra) a.
Proof.
  intros Hl. unfold on_action_frame.
  assert (Hsame : a = set_scored_on_locations (l ++ []) a)
    by now rewrite app_nil_r, set_scored_on_locations_same.
  unfold bind at 1. unfold lift_result at 1.
  destruct (getitem_str state "events") as [events|e]; [|now exists []].
  unfold bind at 1. unfold lift_result at 1.
  destruct (getitem_str events "breach") as [breaches|e]; [|now exists []].
  unfold bind at 1. unfold lift_result at 1.
  destruct (iterate breaches) as [items|e]; [|now exists []].
  now apply record_breaches_extend.
Qed.

Lemma on_action_frame_only_appends_witness :
  exists extra,
    snd (on_action_frame frame_with_short_entry (algo_with [encode_coord (5, 5)]))
    = set_scored_on_locations ([encode_coord (5, 5)] ++ extra)
        (algo_with [encode_coord (5, 5)]).
Proof.
  apply (on_action_frame_only_appends frame_with_short_entry
           (algo_with [encode_coord (5, 5)]) [encode_coord (5, 5)]).
  reflexivity.
Defined.



Lemma record_breaches_unbound es : forall a,
  scored_on_locations a = None ->
  for_each (map encode_breach es) record_breach a
  = (if existsb opponent_owned es
     then Raise (AttributeError "scored_on_locations") else Ok tt, a).
Proof.
  induction es as [|e es IH]; intros a Hnone; [reflexivity|].
  simpl map. simpl for_each. unfold bind at 1.
  unfold record_breach, encode_breach, bind, lift_result. simpl.
  unfold opponent_owned at 1.
  destruct (be_owner e =? 1); simpl.
  - apply IH. exact Hnone.
  - unfold append_scored_on_location, get_scored_on_locations, bind, get, raise.
    now rewrite Hnone.
Qed.

(** X8. Before [on_game_start] has bound the tracker, a well-formed frame
    is processed without an exception exactly when it holds no breach of
    the opponent; with one, [on_action_frame] raises [AttributeError]. The
    object is left as it was either way. *)
Theorem on_action_frame_before_game_start
  (state : pyval) (es : list breach_event) (a : algo) :
  carries state es ->
  scored_on_locations a = None ->
  on_action_frame state a
  = (if existsb opponent_owned es
     then Raise (AttributeError "scored_on_locations") else Ok tt, a).
Proof.
  intros (events & Hev & Hbr) Hnone. unfold on_action_frame.
  unfold bind at 1. unfold lift_result at 1. rewrite Hev.
  unfold bind at 1. unfold lift_result at 1. rewrite Hbr.
  unfold bind at 1. unfold lift_result at 1. simpl iterate. cbv beta iota.
  now apply record_breaches_unbound.
Qed.

Lemma on_action_frame_before_game_start_witness :
  on_action_frame (frame_of [sample_breach 14 0 1; sample_breach 1 12 2])
    fresh_algo
  = (Raise (AttributeError "scored_on_locations"), fresh_algo).
Proof.
  apply (on_action_frame_before_game_start
           (frame_of [sample_breach 14 0 1; sample_breach 1 12 2])
           [sample_breach 14 0 1; sample_breach 1 12 2] fresh_algo).
  - apply frame_of_carries.
  - reflexivity.
Defined.

(** ** The start of a game *)

Lemma shorthand_step cfg (i : Z) (a : algo) :
  (_ <- lift_result (shorthand cfg i) ;; ret tt) a
  = (match shorthand cfg i with Ok _ => Ok tt | Raise e => Raise e end, a).
Proof. unfold bind, lift_result, ret. now destruct (shorthand cfg i). Qed.

Lemma shorthand_loop cfg (xs : list Z) (a : algo) :
  exists r,
    for_each xs (fun i => _ <- lift_result (shorthand cfg i) ;; ret tt) a
    = (r, a).
Proof.
  induction xs as [|x xs IH]; [now exists (Ok tt)|].
  cbn [for_each]. unfold bind at 1. rewrite shorthand_step.
  destruct (shorthand cfg x) as [s|e].
  - exact IH.
  - now exists (Raise e).
Qed.

(** X9. [on_game_start] has two outcomes. Either it returns, with the
    configuration stored and the tracker bound to the empty list, whatever
    it held before; or it raises, with the configuration stored all the
    same and the tracker left as it was. *)
Theorem on_game_start_outcomes (cfg : pyval) (a : algo) :
  on_game_start cfg a
  = (Ok tt, {| config := Some cfg; scored_on_locations := Some [] |}) \/
  exists e, on_game_start cfg a = (Raise e, set_config cfg a).
Proof.
  destruct (shorthand_loop cfg (range 0 6) (set_config cfg a)) as ([[]|e] & E).
  - left. unfold on_game_start. unfold bind at 1. unfold modify at 1.
    unfold bind at 1. now rewrite E.
  - right. exists e. unfold on_game_start. unfold bind at 1.
    unfold modify at 1. unfold bind at 1. now rewrite E.
Qed.

Lemma shorthand_found cfg units u s (i : nat) :
  getitem_str cfg "unitInformation" = Ok (PList units) ->
  nth_error units i = Some u ->
  getitem_str u "shorthand" = Ok s ->
  shorthand cfg (Z.of_nat i) = Ok s.
Proof.
  intros Hu Hn Hs. unfold shorthand. rewrite Hu. unfold getitem_int, nth_index.
  destruct (Z.leb_spec 0 (Z.of_nat i)); [|lia].
  now rewrite Nat2Z.id, Hn.
Qed.

Lemma shorthand_loop_found cfg units (n : nat) (a : algo) :
  getitem_str cfg "unitInformation" = Ok (PList units) ->
  (forall i, (i < n)%nat ->
     exists u s, nth_error units i = Some u /\
                 getitem_str u "shorthand" = Ok s) ->
  forall k, (k <= n)%nat ->
  for_each (map Z.of_nat (seq (n - k) k))
    (fun i => _ <- lift_result (shorthand cfg i) ;; ret tt) a
  = (Ok tt, a).
Proof.
  intros Hu Hwf. induction k as [|k IH]; intros Hk; [reflexivity|].
  simpl seq. simpl map. simpl for_each.
  destruct (Hwf (n - S k)%nat) as (u & s & Hn & Hs); [lia|].
  unfold bind at 1. rewrite shorthand_step.
  rewrite (shorthand_found cfg units u s _ Hu Hn Hs).
  replace (S (n - S k)) with (n - k)%nat by lia.
  apply IH. lia.
Qed.

(** X10. A configuration whose [unitInformation] is a list with a
    [shorthand] in each of its first six entries starts the game: the
    configuration is stored and the tracker is bound to the empty list,
    which discards the history of an earlier game. *)
Theorem on_game_start_well_formed
  (cfg : pyval) (units : list pyval) (a : algo) :
  getitem_str cfg "unitInformation" = Ok (PList units) ->
  (forall i, (i < 6)%nat ->
     exists u s, nth_error units i = Some u /\
                 getitem_str u "shorthand" = Ok s) ->
  on_game_start cfg a
  = (Ok tt, {| config := Some cfg; scored_on_locations := Some [] |}).
Proof.
  intros Hu Hwf. unfold on_game_start. unfold bind at 1. unfold modify at 1.
  unfold bind at 1.
  change (range 0 6) with (map Z.of_nat (seq (6 - 6) 6)).
  now rewrite (shorthand_loop_found cfg units 6 _ Hu Hwf 6 (le_n 6)).
Qed.

Lemma on_game_start_well_formed_witness :
  on_game_start sample_config (algo_with [encode_coord (1, 12)])
  = (Ok tt, {| config := Some sample_config; scored_on_locations := Some [] |}).
Proof.
  apply (on_game_start_well_formed sample_config
           (map (fun s => PDict [("shorthand", PStr s)])
              ["FF"; "EF"; "DF"; "PI"; "EI"; "SI"])
           (algo_with [encode_coord (1, 12)])).
  - reflexivity.
  - intros i Hi.
    do 6 (destruct i as [|i]; [eexists _, _; split; reflexivity|]).
    lia.
Defined.

(** ** From the tracker to the reinforcements *)

Section ReactiveDefence.

Context {GS : Type} `{BattlefieldInterface GS}.

Lemma build_reactive_defense_coords (a : algo) (cs : list coord) (g : GS)
  (earlier : list call) :
  scored_on_locations a = Some (map encode_coord cs) ->
  Defence.build_reactive_defense
    {| self := a; game_state := g; calls := earlier |}
  = (Ok tt,
     {| self := a;
        game_state :=
          fold_left (fun g' c => gs_attempt_spawn g' TURRET [reinforced c] 1)
            cs g;
        calls := earlier
                 ++ map (fun c => AttemptSpawn TURRET [reinforced c] 1) cs |}).
Proof.
  intros Ha. rewrite build_reactive_defense_loop. unfold bind at 1.
  unfold self_scored_on_locations, zoom, get_scored_on_locations, bind, get.
  simpl. rewrite Ha. simpl. apply (reinforce_each cs).
Qed.

Lemma reinforce_unsubscriptable (v : pyval) (e : exn) (t : turn GS) :
  getitem_int v 0 = Raise e -> reinforce v t = (Raise e, t).
Proof. intros E. unfold reinforce, bind, lift_result. now rewrite E. Qed.

Lemma build_reactive_defense_stops (a : algo) (cs : list coord) (v : pyval)
  (rest : list pyval) (e : exn) (g : GS) (earlier : list call) :
  scored_on_locations a = Some (map encode_coord cs ++ v :: rest) ->
  getitem_int v 0 = Raise e ->
  Defence.build_reactive_defense
    {| self := a; game_state := g; calls := earlier |}
  = (Raise e,
     {| self := a;
        game_state :=
          fold_left (fun g' c => gs_attempt_spawn g' TURRET [reinforced c] 1)
            cs g;
        calls := earlier
                 ++ map (fun c => AttemptSpawn TURRET [reinforced c] 1) cs |}).
Proof.
  intros Ha Hv. rewrite build_reactive_defense_loop. unfold bind at 1.
  unfold self_scored_on_locations, zoom, get_scored_on_locations, bind, get.
  simpl. rewrite Ha. simpl.
  rewrite (for_each_app _ _ _ _ _ (reinforce_each cs _)).
  simpl for_each. apply bind_raise. now apply reinforce_unsubscriptable.
Qed.

(** X11. The breaches recorded from well-formed frames are what the next
    pass of [build_reactive_defense] works from: it returns normally,
    leaves the tracker as it is, and issues one turret placement intent
    for each breach of the opponent, in the order of delivery, two columns
    and two rows from the breach. *)
Theorem breaches_drive_reinforcements
  (frames : list pyval) (ess : list (list breach_event)) (a : algo) (g : GS) :
  Forall2 carries frames ess ->
  scored_on_locations a = Some [] ->
  let a' := snd (on_action_frames frames a) in
  let breached := map be_location (filter opponent_owned (List.concat ess)) in
  Defence.build_reactive_defense (start_turn a' g)
  = (Ok tt,
     {| self := a';
        game_state :=
          fold_left (fun g' c => gs_attempt_spawn g' TURRET [reinforced c] 1)
            breached g;
        calls := map (fun c => AttemptSpawn TURRET [reinforced c] 1) breached |}).
Proof.
  intros HF Ha. cbv zeta.
  rewrite (on_action_frames_carry frames ess a [] HF Ha). simpl snd.
  unfold start_turn.
  apply (build_reactive_defense_coords _ _ g []).
  simpl. unfold breach_entries. now rewrite map_map.
Qed.

(** X12. The location of a breach is recorded without being looked at, and
    the tracker is never pruned: once a breach of the opponent whose
    location cannot be subscripted (a number, [null], an empty list) has
    been recorded, [build_reactive_defense] raises on the following pass,
    after the reinforcements for the entries recorded before it. *)
Theorem unsubscriptable_location_breaks_reactive_defense
  (cs : list coord) (v f1 f2 f3 owner : pyval) (e : exn)
  (state events : pyval) (cfg : option pyval) (g : GS) :
  getitem_str state "events" = Ok events ->
  getitem_str events "breach" = Ok (PList [PList [v; f1; f2; f3; owner]]) ->
  eq_one owner = false ->
  getitem_int v 0 = Raise e ->
  let a := {| config := cfg;
              scored_on_locations := Some (map encode_coord cs) |} in
  let a' := snd (on_action_frame state a) in
  fst (on_action_frame state a) = Ok tt /\
  Defence.build_reactive_defense (start_turn a' g)
  = (Raise e,
     {| self := a';
        game_state :=
          fold_left (fun g' c => gs_attempt_spawn g' TURRET [reinforced c] 1)
            cs g;
        calls := map (fun c => AttemptSpawn TURRET [reinforced c] 1) cs |}).
Proof.
  intros Hev Hbr Howner Hv. cbv zeta.
  assert (E : on_action_frame state
                {| config := cfg;
                   scored_on_locations := Some (map encode_coord cs) |}
              = (Ok tt,
                 {| config := cfg;
                    scored_on_locations := Some (map encode_coord cs ++ [v]) |})).
  { unfold on_action_frame.
    unfold bind at 1. unfold lift_result at 1. rewrite Hev.
    unfold bind at 1. unfold lift_result at 1. rewrite Hbr.
    unfold bind at 1. unfold lift_result at 1. simpl iterate. cbv beta iota.
    simpl for_each. unfold record_breach, bind, lift_result. simpl.
    rewrite Howner. reflexivity. }
  rewrite E. simpl fst. simpl snd. split; [reflexivity|].
  unfold start_turn.
  now apply (build_reactive_defense_stops _ cs v [] e g []).
Qed.

End ReactiveDefence.

Lemma breaches_drive_reinforcements_witness :
  let a' := snd (on_action_frames (map frame_of sample_frames) (algo_with [])) in
  let breached :=
    map be_location (filter opponent_owned (List.concat sample_frames)) in
  Defence.build_reactive_defense (start_turn a' (game_state scarce_turn))
  = (Ok tt,
     {| self := a';
        game_state :=
          fold_left (fun g' c => gs_attempt_spawn g' TURRET [reinforced c] 1)
            breached (game_state scarce_turn);
        calls := map (fun c => AttemptSpawn TURRET [reinforced c] 1) breached |}).
Proof.
  apply (breaches_drive_reinforcements (map frame_of sample_frames)
           sample_frames (algo_with []) (game_state scarce_turn)).
  - repeat constructor; apply frame_of_carries.
  - reflexivity.
Defined.

Lemma unsubscriptable_location_breaks_reactive_defense_witness :
  let a := {| config := None;
              scored_on_locations := Some (map encode_coord [(1, 12)]) |} in
  let a' := snd (on_action_frame frame_with_null_location a) in
  fst (on_action_frame frame_with_null_location a) = Ok tt /\
  Defence.build_reactive_defense (start_turn a' (game_state scarce_turn))
  = (Raise TypeError,
     {| self := a';
        game_state :=
          fold_left (fun g' c => gs_attempt_spawn g' TURRET [reinforced c] 1)
            [(1, 12)] (game_state scarce_turn);
        calls := map (fun c => AttemptSpawn TURRET [reinforced c] 1) [(1, 12)] |}).
Proof.
  apply (unsubscriptable_location_breaks_reactive_defense [(1, 12)]
           PNone PNone PNone PNone (PInt 2) TypeError
           frame_with_null_location
           (PDict [("breach", PList [PList [PNone; PNone; PNone; PNone; PInt 2]])])
           None (game_state scarce_turn)); reflexivity.
Defined.

(** ** The shape of a resource-policy pass *)

Lemma guarded_app cs1 cs2 l1 l2 :
  guarded cs1 l1 -> guarded cs2 l2 -> guarded (cs1 ++ cs2) (l1 ++ l2).
Proof.
  induction 1 as [|k c checks b rest Hb Hrest IH]; intros H2; simpl;
    [exact H2|].
  rewrite <- app_assoc. constructor; auto.
Qed.

Lemma guarded_one k c b : guarded_block k c b -> guarded [(k, c)] b.
Proof.
  intros Hb. rewrite <- (app_nil_r b). constructor; [exact Hb|constructor].
Qed.

Lemma guarded_counts cs l :
  guarded cs l ->
  List.length (filter is_check l) = List.length cs /\
  (List.length (filter is_intent l) <= List.length cs)%nat /\
  Forall (fun x => x <> SubmitTurn) l.
Proof.
  induction 1 as [|k c checks b rest Hb Hrest (IH1 & IH2 & IH3)].
  - repeat split; auto.
  - rewrite !filter_app, !length_app.
    destruct Hb; simpl; repeat split; try lia;
      repeat (constructor; [discriminate|]); exact IH3.
Qed.

Section PolicyShape.

Context {GS : Type} `{BattlefieldInterface GS}.

Lemma bind_assoc {S A B C} (m : M S A) (k : A -> M S B) (h : B -> M S C) s :
  bind (bind m k) h s = bind m (fun x => bind (k x) h) s.
Proof. unfold bind. destruct (m s) as [[a|e] s1]; reflexivity. Qed.

Lemma produces_regroup {A B C} R (m : M (turn GS) A) (k : A -> M (turn GS) B)
  (h : B -> M (turn GS) C) :
  produces R (bind (bind m k) h) ->
  produces R (bind m (fun x => bind (k x) h)).
Proof. intros Hp t. rewrite <- bind_assoc. apply Hp. Qed.

Lemma produces_bind_guarded {A B} cs1 cs2 (p : M (turn GS) A)
  (k : A -> M (turn GS) B) :
  produces (guarded cs1) p -> (forall a, produces (guarded cs2) (k a)) ->
  produces (guarded (cs1 ++ cs2)) (bind p k).
Proof.
  intros Hp Hk t.
  destruct (Hp t) as (a & t1 & new1 & E1 & S1 & C1 & G1).
  destruct (Hk a t1) as (b & t2 & new2 & E2 & S2 & C2 & G2).
  exists b, t2, (new1 ++ new2). rewrite (bind_ok _ _ _ _ _ E1).
  repeat split; auto.
  - congruence.
  - rewrite C2, C1. now rewrite app_assoc.
  - now apply guarded_app.
Qed.

(** A pre-check of [c] that guards a placement on [c'], when the block it
    makes once granted is a guarded block. *)
Lemma produces_guarded_placement k c c' :
  guarded_block k c [CanSpawn k c true; AttemptSpawn k [c'] 1] ->
  produces (guarded [(k, c)])
    (ok <- can_spawn k c ;; when ok (attempt_spawn k [c'] 1)).
Proof.
  intros Hblock t. rewrite (bind_ok _ _ _ _ _ (run_can_spawn k c t)).
  destruct (gs_can_spawn (game_state t) k c); simpl when.
  - rewrite run_attempt_spawn.
    eexists tt, _, [CanSpawn k c true; AttemptSpawn k [c'] 1].
    repeat split.
    + simpl. now rewrite <- app_assoc.
    + now apply guarded_one.
  - eexists tt, _, [CanSpawn k c false]. repeat split.
    apply guarded_one. constructor.
Qed.

Lemma produces_turret_step c :
  produces (guarded [(TURRET, c)])
    (ok <- can_spawn TURRET c ;;
     if ok then attempt_spawn TURRET [c] 1 else attempt_upgrade TURRET [c]).
Proof.
  intros t. rewrite (bind_ok _ _ _ _ _ (run_can_spawn TURRET c t)).
  destruct (gs_can_spawn (game_state t) TURRET c).
  - rewrite run_attempt_spawn.
    eexists tt, _, [CanSpawn TURRET c true; AttemptSpawn TURRET [c] 1].
    repeat split.
    + simpl. now rewrite <- app_assoc.
    + apply guarded_one. constructor. discriminate.
  - rewrite run_attempt_upgrade.
    eexists tt, _, [CanSpawn TURRET c false; AttemptUpgrade TURRET [c]].
    repeat split.
    + simpl. now rewrite <- app_assoc.
    + apply guarded_one. constructor.
Qed.

Lemma produces_for_each_guarded {A} (f : A -> unit_kind * coord)
  (xs : list A) (body : A -> M (turn GS) unit) :
  (forall x, produces (guarded [f x]) (body x)) ->
  produces (guarded (map f xs)) (for_each xs body).
Proof.
  intros Hb. induction xs as [|x xs IH]; simpl.
  - intros t. exists tt, t, []. rewrite app_nil_r. repeat split. constructor.
  - apply (produces_bind_guarded [f x] (map f xs)); [apply Hb|].
    intros _. exact IH.
Qed.

Lemma wall_fill_guarded (xs : list Z) :
  produces (guarded (map (fun i => (WALL, (i, 13))) xs))
    (for_each xs (fun i =>
       ok <- can_spawn WALL (i, 13) ;;
       when ok (attempt_spawn WALL [(i, 13)] 1))).
Proof.
  apply (produces_for_each_guarded (fun i => (WALL, (i, 13)))).
  intros i. apply produces_guarded_placement. constructor. discriminate.
Qed.

Lemma support_fill_guarded (xs : list Z) :
  produces (guarded (map (fun i => (SUPPORT, (i, 12))) xs))
    (for_each xs (fun i =>
       ok <- can_spawn SUPPORT (i, 12) ;;
       when ok (attempt_spawn SUPPORT [(i, 13)] 1))).
Proof.
  apply (produces_for_each_guarded (fun i => (SUPPORT, (i, 12)))).
  intros i. apply produces_guarded_placement. constructor.
Qed.

Lemma fill_rows_guarded :
  produces
    (guarded (map (fun i => (WALL, (i, 13))) (range 1 10)
              ++ map (fun i => (WALL, (i, 13))) (range 17 27)
              ++ map (fun i => (SUPPORT, (i, 12))) (range 1 4)
              ++ map (fun i => (SUPPORT, (i, 12))) (range 24 27)))
    fill_rows.
Proof.
  unfold fill_rows.
  apply produces_bind_guarded; [apply wall_fill_guarded|intros _].
  apply produces_bind_guarded; [apply wall_fill_guarded|intros _].
  apply produces_bind_guarded; [apply support_fill_guarded|intros _].
  apply support_fill_guarded.
Qed.

Lemma scarce_branch_guarded : produces (guarded policy_checks) scarce_branch.
Proof.
  unfold scarce_branch, policy_checks. apply produces_regroup.
  apply (produces_bind_guarded [(TURRET, (12, 11))]).
  { apply produces_guarded_placement. constructor. discriminate. }
  intros _. apply produces_regroup.
  apply (produces_bind_guarded [(TURRET, (15, 11))]).
  { apply produces_guarded_placement. constructor. }
  intros _. apply fill_rows_guarded.
Qed.

Lemma sufficient_branch_guarded :
  produces (guarded policy_checks) sufficient_branch.
Proof.
  unfold sufficient_branch, policy_checks. apply produces_regroup.
  apply (produces_bind_guarded [(TURRET, (12, 11))]);
    [apply produces_turret_step|].
  intros _. apply produces_regroup.
  apply (produces_bind_guarded [(TURRET, (15, 11))]);
    [apply produces_turret_step|].
  intros _. apply fill_rows_guarded.
Qed.

(** X13. Whenever the comparison of the balance with 12 has an answer,
    and in both regimes, [update_defence] returns normally, leaves the
    tracker alone, and makes the same 27 pre-checks in the same order: the
    two turret cells, the wall cells 1 to 9 and 17 to 26 of row 13, the
    support cells 1 to 3 and 24 to 26 of row 12. Every intent it issues
    directly follows the pre-check that guards it: a placement follows a
    granted pre-check and is for the cell checked (for a support, the cell
    one row up; after the pre-check of [(15, 11)], possibly [(12, 11)]),
    an upgrade follows a refused turret pre-check of the same cell. So it
    issues at most 27 intents, and it never submits the turn. *)
Theorem update_defence_is_27_guarded_blocks (t : turn GS) (b : bool) :
  lt_twelve (gs_get_resources (game_state t) 0) = Ok b ->
  exists t' new,
    Defence.update_defence t = (Ok tt, t') /\
    self t' = self t /\
    calls t' = calls t ++ new /\
    guarded policy_checks new /\
    List.length (filter is_check new) = 27%nat /\
    (List.length (filter is_intent new) <= 27)%nat /\
    Forall (fun x => x <> SubmitTurn) new.
Proof.
  intros Hsp. rewrite (update_defence_regime t b Hsp).
  assert (Hb : produces (guarded policy_checks)
                 (if b then scarce_branch else sufficient_branch)).
  { destruct b;
      [apply scarce_branch_guarded | apply sufficient_branch_guarded]. }
  destruct (Hb t) as ([] & t' & new & E & S & C & G).
  exists t', new. repeat split; auto;
    now apply (guarded_counts policy_checks new G).
Qed.

(** X21. When what [get_resources] answers cannot be ordered against 12 (a
    pool of two balances held as a list or a dict, or [None]),
    [update_defence] raises [TypeError] at the comparison, before any
    pre-check and any intent. *)
Theorem update_defence_cannot_order_a_pool (t : turn GS) :
  (forall b, lt_twelve (gs_get_resources (game_state t) 0) <> Ok b) ->
  Defence.update_defence t = (Raise TypeError, t).
Proof.
  intros Hpool. apply update_defence_unordered.
  destruct (gs_get_resources (game_state t) 0) as [|b|n|f|s|items|items];
    simpl in *; try reflexivity; exfalso; eapply Hpool; reflexivity.
Qed.

End PolicyShape.

Lemma update_defence_is_27_guarded_blocks_witness :
  exists t' new,
    Defence.update_defence support_turn = (Ok tt, t') /\
    self t' = self support_turn /\
    calls t' = calls support_turn ++ new /\
    guarded policy_checks new /\
    List.length (filter is_check new) = 27%nat /\
    (List.length (filter is_intent new) <= 27)%nat /\
    Forall (fun x => x <> SubmitTurn) new.
Proof.
  apply (update_defence_is_27_guarded_blocks support_turn true). reflexivity.
Defined.

Lemma update_defence_cannot_order_a_pool_witness :
  Defence.update_defence fortified_turn = (Raise TypeError, fortified_turn).
Proof.
  apply (update_defence_cannot_order_a_pool fortified_turn).
  intros b. discriminate.
Defined.

(** ** The pass when helpers are provided *)

Section ProvidedHelpers.

Context {GS : Type} `{BattlefieldInterface GS}.

Variable AlgoCore_attr : string -> option (@method GS).

(** X14. From the fifth turn on, with a density above ten, the offence
    planner is the call of [demolisher_line_strategy] and nothing else: in
    this branch it spawns no scout and issues no support intent of its
    own. *)
Theorem crowded_turn_is_the_demolisher_line
  (detect line : @method GS) (t t1 : turn GS) (d : pyval) :
  5 <= gs_turn_number (game_state t) ->
  AlgoCore_attr "detect_enemy_unit" = Some detect ->
  detect [PNone; PNone; PList [PInt 14; PInt 15]] t = (Ok d, t1) ->
  gt_ten d = Ok true ->
  AlgoCore_attr "demolisher_line_strategy" = Some line ->
  offence_planner AlgoCore_attr t = (line [] ;; ret tt) t1.
Proof.
  intros Htn E Hd Hgt El. unfold offence_planner.
  rewrite (bind_ok _ _ _ _ _ (run_turn_number t)).
  apply Z.ltb_ge in Htn. rewrite Htn.
  unfold self_call at 1. simpl attr_name. rewrite E.
  rewrite (bind_ok _ _ _ _ _ Hd).
  unfold bind at 1. unfold lift_result at 1. rewrite Hgt.
  unfold self_call. simpl attr_name. now rewrite El.
Qed.

(** X15. On an odd turn from the fifth on, with a density of at most ten,
    the offence planner passes the two candidates [[13, 0]] and [[14, 0]]
    to [least_damage_spawn_location], asks for 1000 scouts at the location
    it returns, and then issues the support intent for the four mid-board
    cells. *)
Theorem odd_turn_rushes_from_the_returned_location
  (detect least : @method GS) (t t1 t2 : turn GS) (d : pyval) (c : coord) :
  5 <= gs_turn_number (game_state t) ->
  AlgoCore_attr "detect_enemy_unit" = Some detect ->
  detect [PNone; PNone; PList [PInt 14; PInt 15]] t = (Ok d, t1) ->
  gt_ten d = Ok false ->
  gs_turn_number (game_state t1) mod 2 = 1 ->
  AlgoCore_attr "least_damage_spawn_location" = Some least ->
  least [PList [PList [PInt 13; PInt 0]; PList [PInt 14; PInt 0]]] t1
  = (Ok (encode_coord c), t2) ->
  offence_planner AlgoCore_attr t
  = (attempt_spawn SCOUT [c] 1000 ;;
     attempt_spawn SUPPORT [(13, 2); (14, 2); (13, 3); (14, 3)] 1) t2.
Proof.
  intros Htn E Hd Hgt Hodd El Hl. unfold offence_planner.
  rewrite (bind_ok _ _ _ _ _ (run_turn_number t)).
  apply Z.ltb_ge in Htn. rewrite Htn.
  unfold self_call at 1. simpl attr_name. rewrite E.
  rewrite (bind_ok _ _ _ _ _ Hd).
  unfold bind at 1. unfold lift_result at 1. rewrite Hgt.
  rewrite (bind_ok _ _ _ _ _ (run_turn_number t1)).
  apply Z.eqb_eq in Hodd. rewrite Hodd. simpl when.
  unfold self_call. simpl attr_name. rewrite El.
  rewrite bind_assoc. rewrite (bind_ok _ _ _ _ _ Hl).
  destruct c as [x y]. reflexivity.
Qed.

(** X17. Were the three methods of [Defence] the helpers that attribute
    lookup finds, the pass would still not complete: [build_defences]
    raises [TypeError] when it evaluates [wall_locations], so [on_turn]
    raises after the single turret intent for [[11, 11]] and [[16, 11]],
    without reaching the later phases and without submitting. *)
Theorem on_turn_with_Defence_methods_raises_TypeError (t : turn GS) :
  AlgoCore_attr "build_defences" = Some (as_method Defence.build_defences) ->
  on_turn AlgoCore_attr t
  = (Raise TypeError,
     record_call (AttemptSpawn TURRET [(11, 11); (16, 11)] 1)
       (gs_attempt_spawn (game_state t) TURRET [(11, 11); (16, 11)] 1) t).
Proof.
  intros E. unfold on_turn, starter_strategy, defence_phases.
  do 3 apply bind_raise.
  unfold self_call. cbn [attr_name]. rewrite E. reflexivity.
Qed.

End ProvidedHelpers.

Lemma crowded_turn_is_the_demolisher_line_witness :
  offence_planner (offence_base 12) eighth_turn
  = (sample_demolisher_line [] ;; ret tt) eighth_turn.
Proof.
  apply (crowded_turn_is_the_demolisher_line (offence_base 12)
           (fun _ => ret (PInt 12)) sample_demolisher_line
           eighth_turn eighth_turn (PInt 12)).
  - simpl. lia.
  - reflexivity.
  - reflexivity.
  - reflexivity.
  - reflexivity.
Defined.

Lemma odd_turn_rushes_from_the_returned_location_witness :
  offence_planner (offence_base 3) seventh_turn
  = (attempt_spawn SCOUT [(13, 0)] 1000 ;;
     attempt_spawn SUPPORT [(13, 2); (14, 2); (13, 3); (14, 3)] 1) seventh_turn.
Proof.
  apply (odd_turn_rushes_from_the_returned_location (offence_base 3)
           (fun _ => ret (PInt 3)) sample_least_damage
           seventh_turn seventh_turn seventh_turn (PInt 3) (13, 0)).
  - simpl. lia.
  - reflexivity.
  - reflexivity.
  - reflexivity.
  - reflexivity.
  - reflexivity.
  - reflexivity.
Defined.

Lemma on_turn_with_Defence_methods_raises_TypeError_witness :
  on_turn Defence_base opening_turn
  = (Raise TypeError,
     record_call (AttemptSpawn TURRET [(11, 11); (16, 11)] 1)
       (gs_attempt_spawn (game_state opening_turn) TURRET
          [(11, 11); (16, 11)] 1) opening_turn).
Proof.
  apply (on_turn_with_Defence_methods_raises_TypeError Defence_base
           opening_turn).
  reflexivity.
Defined.
